(** * Datwatch: the debounced .dat watcher and its LR-to-EPIC converter

    A shallow embedding of [Datwatch/Datwatch.py]: the conversion routine
    [convert_lr_to_epic] and the event handler [LRMetaDataHandler] with its
    poll-cycle dispatcher [check_and_process_files], followed by the
    properties of the specification that can be settled on them.

    Conventions of the embedding.
    - A Python [str] is a Rocq [string]; its characters are the code points
      below 256.
    - Python exceptions are values of [exn]; a computation that may raise
      returns a [result].
    - The float that [float()] builds is a binary64 number of the
      [SpecFloat] library, correctly rounded from the decimal literal.
    - Clock readings and file times ([time.time()], [st_mtime],
      [st_ctime]) are integers counting microseconds since the epoch;
      the local time zone is UTC.  Comparisons and differences of clock
      readings are exact.
    - The file system is a finite map from paths to what they name.  It
      does not change while a callback or a poll cycle runs; other
      programs change it between them.
    - The platform is POSIX with glibc, as CPython 3.11 runs on it: paths
      are joined as [posixpath] joins them, [os.makedirs] makes every
      missing directory on the way, and [strftime] writes the year as it
      is, without padding it to four digits.
    - Log records keep the data of the message instead of its rendering. *)

From Stdlib Require Import ZArith String Ascii List Bool Lia.
From Corelib Require Import SpecFloat.
From stdpp Require Import gmap strings.
Import ListNotations.

Local Open Scope Z_scope.

(** ** Exceptions and results *)

Inductive exn : Set :=
  | ValueError
  | OverflowError
  | FileNotFoundError
  | PermissionError
  | IsADirectoryError
  | NotADirectoryError
  | FileExistsError.

Inductive result (A : Type) : Type :=
  | Ok (a : A)
  | Raise (e : exn).
Arguments Ok {A} a.
Arguments Raise {A} e.

Definition rbind {A B : Type} (r : result A) (k : A -> result B) : result B :=
  match r with
  | Ok a => k a
  | Raise e => Raise e
  end.

Notation "'do' x <- r ; k" := (rbind r (fun x => k))
  (at level 10, x name, r at level 100, k at level 200).

(** ** Python strings *)

Module PyStr.

Definition ord (c : ascii) : Z := Z.of_N (N_of_ascii c).

Definition tab : ascii := ascii_of_N 9.
Definition lf : ascii := ascii_of_N 10.
Definition cr : ascii := ascii_of_N 13.

(** [str.isspace] on one character (code points below 256). *)
Definition isspace (c : ascii) : bool :=
  let n := ord c in
  ((9 <=? n) && (n <=? 13)) || ((28 <=? n) && (n <=? 32))
  || (n =? 133) || (n =? 160).

Definition isdigit (c : ascii) : bool :=
  let n := ord c in (48 <=? n) && (n <=? 57).

Fixpoint lstrip_with (sp : ascii -> bool) (s : string) : string :=
  match s with
  | EmptyString => EmptyString
  | String c s' => if sp c then lstrip_with sp s' else s
  end.

Fixpoint rstrip_with (sp : ascii -> bool) (s : string) : string :=
  match s with
  | EmptyString => EmptyString
  | String c s' =>
      match rstrip_with sp s' with
      | EmptyString => if sp c then EmptyString else String c EmptyString
      | r => String c r
      end
  end.

(** [s.strip()] *)
Definition strip (s : string) : string :=
  rstrip_with isspace (lstrip_with isspace s).

(** [s.split(sep)] for a one-character separator: one more part than
    there are separators, empty parts included. *)
Fixpoint split (sep : ascii) (s : string) : list string :=
  match s with
  | EmptyString => [EmptyString]
  | String c s' =>
      if Ascii.eqb c sep then EmptyString :: split sep s'
      else match split sep s' with
           | p :: ps => String c p :: ps
           | [] => [String c EmptyString]
           end
  end.

Fixpoint startswith (s pre : string) : bool :=
  match pre, s with
  | EmptyString, _ => true
  | String p pre', String c s' => Ascii.eqb c p && startswith s' pre'
  | String _ _, EmptyString => false
  end.

Fixpoint rev_onto (s acc : string) : string :=
  match s with
  | EmptyString => acc
  | String c s' => rev_onto s' (String c acc)
  end.

Definition rev (s : string) : string := rev_onto s EmptyString.

(** [s.endswith(suf)] *)
Definition endswith (s suf : string) : bool := startswith (rev s) (rev suf).

(** [f.readlines()] on a text file opened with universal newlines:
    a line ends at "\n", "\r" or "\r\n", and its terminator is read as
    "\n"; a last line without terminator is kept as it is. *)
Fixpoint readlines (s : string) : list string :=
  match s with
  | EmptyString => []
  | String c s' =>
      if Ascii.eqb c lf then String lf EmptyString :: readlines s'
      else if Ascii.eqb c cr then
        match s' with
        | String c' s'' =>
            if Ascii.eqb c' lf then String lf EmptyString :: readlines s''
            else String lf EmptyString :: readlines s'
        | EmptyString => [String lf EmptyString]
        end
      else match readlines s' with
           | l :: ls =>
               match s' with
               | EmptyString => [String c EmptyString]
               | _ => String c l :: ls
               end
           | [] => [String c EmptyString]
           end
  end.

End PyStr.

(** ** Python floats *)

Module PyFloat.

(** binary64 *)
Definition prec : Z := 53.
Definition emax : Z := 1024.
Definition float : Set := spec_float.

(** The space characters that [float()] strips from both ends of its
    argument. *)
Definition isspace (c : ascii) : bool :=
  let n := PyStr.ord c in
  ((9 <=? n) && (n <=? 13)) || (n =? 32) || (n =? 133) || (n =? 160).

Definition underscore : ascii := ascii_of_N 95.

(** Underscores may only stand between two digits; they are dropped.
    [prev] is the character before [s], if any. *)
Fixpoint drop_underscores (prev : option ascii) (s : string) : option string :=
  match s with
  | EmptyString =>
      match prev with
      | Some p => if Ascii.eqb p underscore then None else Some EmptyString
      | None => Some EmptyString
      end
  | String c s' =>
      let prev_digit := match prev with Some p => PyStr.isdigit p | None => false end in
      let prev_under := match prev with Some p => Ascii.eqb p underscore | None => false end in
      if Ascii.eqb c underscore then
        if prev_digit then drop_underscores (Some c) s' else None
      else if prev_under && negb (PyStr.isdigit c) then None
      else option_map (String c) (drop_underscores (Some c) s')
  end.

Definition lower (c : ascii) : ascii :=
  let n := PyStr.ord c in
  if (65 <=? n) && (n <=? 90) then ascii_of_N (Z.to_N (n + 32)) else c.

Fixpoint lower_string (s : string) : string :=
  match s with
  | EmptyString => EmptyString
  | String c s' => String (lower c) (lower_string s')
  end.

(** The leading digits of [s], as a number and a count, and what
    follows them. *)
Fixpoint take_digits (acc : Z) (n : Z) (s : string) : Z * Z * string :=
  match s with
  | String c s' =>
      if PyStr.isdigit c
      then take_digits (10 * acc + (PyStr.ord c - 48)) (n + 1) s'
      else (acc, n, s)
  | EmptyString => (acc, n, s)
  end.

Definition take_sign (s : string) : bool * string :=
  match s with
  | String c s' =>
      if Ascii.eqb c "-" then (true, s')
      else if Ascii.eqb c "+" then (false, s')
      else (false, s)
  | EmptyString => (false, s)
  end.

(** A float literal after its sign: a special value, or the decimal
    [digits * 10 ^ exp10]. *)
Inductive literal : Set :=
  | LitInf
  | LitNan
  | LitDec (digits : Z) (exp10 : Z).

Definition parse_exponent (s : string) : option Z :=
  match s with
  | EmptyString => Some 0
  | String c s' =>
      if Ascii.eqb (lower c) "e" then
        let '(neg, s1) := take_sign s' in
        let '(e, n, rest) := take_digits 0 0 s1 in
        match rest with
        | EmptyString => if 0 <? n then Some (if neg then - e else e) else None
        | _ => None
        end
      else None
  end.

Definition parse_decimal (s : string) : option literal :=
  let '(ip, ni, s1) := take_digits 0 0 s in
  let '(fp, nf, s2) :=
    match s1 with
    | String c s' =>
        if Ascii.eqb c "." then take_digits ip 0 s' else (ip, 0, s1)
    | EmptyString => (ip, 0, s1)
    end in
  if 0 <? ni + nf then
    match parse_exponent s2 with
    | Some e => Some (LitDec fp (e - nf))
    | None => None
    end
  else None.

Definition parse_literal (s : string) : option literal :=
  let l := lower_string s in
  if (String.eqb l "inf" || String.eqb l "infinity")%bool then Some LitInf
  else if String.eqb l "nan" then Some LitNan
  else parse_decimal s.

(** The binary64 nearest to [d * 10 ^ e] (ties to even), for [0 <= d]. *)
Definition of_decimal (neg : bool) (d e : Z) : float :=
  match d with
  | Zpos p =>
      match e with
      | Zneg k =>
          SFdiv prec emax (S754_finite neg p 0)
                (S754_finite false (Pos.pow 10 k) 0)
      | _ => binary_normalize prec emax (if neg then - (d * 10 ^ e) else d * 10 ^ e) 0 neg
      end
  | _ => S754_zero neg
  end.

(** [float(s)] for a string [s]; a string that is no float literal
    raises [ValueError]. *)
Definition float_of_string (s : string) : result float :=
  match drop_underscores None s with
  | None => Raise ValueError
  | Some s0 =>
      let s1 := PyStr.rstrip_with isspace (PyStr.lstrip_with isspace s0) in
      let '(neg, s2) := take_sign s1 in
      match parse_literal s2 with
      | Some LitInf => Ok (S754_infinity neg)
      | Some LitNan => Ok S754_nan
      | Some (LitDec d e) => Ok (of_decimal neg d e)
      | None => Raise ValueError
      end
  end.

(** [modf]: the integral part, as an integer, and what is left, as the
    numerator [r] of a fraction [r / 2 ^ k] with [0 <= r < 2 ^ k], of
    the magnitude of a finite float. *)
Definition modf_abs (m : positive) (e : Z) : Z * Z * Z :=
  match e with
  | Zneg k => (Z.shiftr (Zpos m) (Zpos k), Z.land (Zpos m) (Z.ones (Zpos k)), Zpos k)
  | _ => (Z.shiftl (Zpos m) e, 0, 0)
  end.

End PyFloat.

(** ** Python's [datetime] and [timedelta] *)

Module PyDatetime.

Record timedelta : Set := mkDelta
  { days : Z; seconds : Z; microseconds : Z }.

Record datetime : Set := mkDatetime
  { year : Z; month : Z; day : Z;
    hour : Z; minute : Z; second : Z; microsecond : Z }.

Definition us_per_second : Z := 1000000.
Definition us_per_day : Z := 86400 * us_per_second.
Definition MAX_DELTA_DAYS : Z := 999999999.
Definition MAXORDINAL : Z := 3652059.

(** A number of microseconds as a normalised [timedelta]; more than
    [MAX_DELTA_DAYS] days either way is an [OverflowError]. *)
Definition microseconds_to_delta (us : Z) : result timedelta :=
  let d := us / us_per_day in
  if (d <? - MAX_DELTA_DAYS) || (MAX_DELTA_DAYS <? d) then Raise OverflowError
  else Ok (mkDelta d ((us mod us_per_day) / us_per_second) (us mod us_per_second)).

Definition total_us (td : timedelta) : Z :=
  days td * us_per_day + seconds td * us_per_second + microseconds td.

Definition million : PyFloat.float :=
  binary_normalize PyFloat.prec PyFloat.emax us_per_second 0 false.

(** [timedelta(seconds=x)] for a float [x]: the integral part of [x] is
    scaled exactly; its fractional part is multiplied by 1e6 in binary64,
    and what is left of the product below one microsecond is rounded to
    the nearest microsecond, ties to the even total.  NaN raises
    [ValueError], an infinity [OverflowError]. *)
Definition timedelta_of_seconds (x : PyFloat.float) : result timedelta :=
  match x with
  | S754_nan => Raise ValueError
  | S754_infinity _ => Raise OverflowError
  | S754_zero _ => microseconds_to_delta 0
  | S754_finite s m e =>
      let '(ip, r, k) := PyFloat.modf_abs m e in
      let sum := cond_Zopp s ip * us_per_second in
      if r =? 0 then microseconds_to_delta sum
      else
        let fracpart :=
          binary_normalize PyFloat.prec PyFloat.emax (cond_Zopp s r) (- k) false in
        match SFmul PyFloat.prec PyFloat.emax million fracpart with
        | S754_finite s2 m2 e2 =>
            let '(ip2, r2, k2) := PyFloat.modf_abs m2 e2 in
            let y := sum + cond_Zopp s2 ip2 in
            let whole_us :=
              if r2 =? 0 then 0
              else match 2 * r2 ?= 2 ^ k2 with
                   | Lt => 0
                   | Gt => cond_Zopp s2 1
                   | Eq => if Z.odd y then cond_Zopp s2 1 else 0
                   end in
            microseconds_to_delta (y + whole_us)
        | S754_zero _ => microseconds_to_delta sum
        | S754_infinity _ => Raise OverflowError
        | S754_nan => Raise ValueError
        end
  end.

Definition is_leap (y : Z) : bool :=
  (y mod 4 =? 0) && (negb (y mod 100 =? 0) || (y mod 400 =? 0)).

Definition days_in_month (y m : Z) : Z :=
  if m =? 2 then (if is_leap y then 29 else 28)
  else if (m =? 4) || (m =? 6) || (m =? 9) || (m =? 11) then 30
  else 31.

(** Days of the year before the first of month [m] in a common year. *)
Definition days_before_month_common (m : Z) : Z :=
  nth (Z.to_nat m) [0; 0; 31; 59; 90; 120; 151; 181; 212; 243; 273; 304; 334] 0.

Definition days_before_month (y m : Z) : Z :=
  days_before_month_common m + (if (2 <? m) && is_leap y then 1 else 0).

Definition days_before_year (y : Z) : Z :=
  let y1 := y - 1 in y1 * 365 + y1 / 4 - y1 / 100 + y1 / 400.

Definition ymd_to_ord (y m d : Z) : Z :=
  days_before_year y + days_before_month y m + d.

(** The date of the proleptic Gregorian ordinal [ordinal]
    (0001-01-01 is day 1). *)
Definition ord_to_ymd (ordinal : Z) : Z * Z * Z :=
  let n := ordinal - 1 in
  let n400 := n / 146097 in
  let n := n mod 146097 in
  let n100 := n / 36524 in
  let n := n mod 36524 in
  let n4 := n / 1461 in
  let n := n mod 1461 in
  let n1 := n / 365 in
  let n := n mod 365 in
  let y := n400 * 400 + 1 + n100 * 100 + n4 * 4 + n1 in
  if (n1 =? 4) || (n100 =? 4) then (y - 1, 12, 31)
  else
    let leapyear := (n1 =? 3) && (negb (n4 =? 24) || (n100 =? 3)) in
    let m := Z.shiftr (n + 50) 5 in
    let preceding :=
      days_before_month_common m + (if (2 <? m) && leapyear then 1 else 0) in
    if n <? preceding then
      let m' := m - 1 in
      let dim :=
        if (m' =? 2) && leapyear then 29 else days_in_month 1 m' in
      (y, m', n - (preceding - dim) + 1)
    else (y, m, n - preceding + 1).

(** Microseconds from 0001-01-01T00:00:00 to the datetime. *)
Definition to_us (dt : datetime) : Z :=
  (ymd_to_ord (year dt) (month dt) (day dt) - 1) * us_per_day
  + ((hour dt * 60 + minute dt) * 60 + second dt) * us_per_second
  + microsecond dt.

(** The datetime that many microseconds after 0001-01-01T00:00:00;
    outside the years 1 to 9999 it is an [OverflowError]. *)
Definition of_us (t : Z) : result datetime :=
  let ordinal := t / us_per_day + 1 in
  if (ordinal <? 1) || (MAXORDINAL <? ordinal) then Raise OverflowError
  else
    let '(y, m, d) := ord_to_ymd ordinal in
    let r := t mod us_per_day in
    let s := r / us_per_second in
    Ok (mkDatetime y m d (s / 3600) ((s / 60) mod 60) (s mod 60)
                   (r mod us_per_second)).

(** [dt + td] *)
Definition add (dt : datetime) (td : timedelta) : result datetime :=
  of_us (to_us dt + total_us td).

(** [datetime.fromtimestamp(t)], for [t] in microseconds since the
    epoch (1970-01-01 is day 719163). *)
Definition fromtimestamp (t : Z) : result datetime :=
  of_us (t + 719162 * us_per_day).

Definition digit (n : Z) : ascii := ascii_of_N (Z.to_N (48 + n mod 10)).

(** The last [width] decimal digits of [n], zero-padded. *)
Fixpoint zfill (width : nat) (n : Z) (acc : string) : string :=
  match width with
  | O => acc
  | S w => zfill w (n / 10) (String (digit n) acc)
  end.

(** [%Y]: the year [y] of a [datetime], 1 to 9999, in decimal.  The C
    library writes it; glibc does not pad it, so that a year below 1000
    comes with as many digits as it has (the year 27 as "27"). *)
Definition strftime_Y (y : Z) (acc : string) : string :=
  if y <? 10 then zfill 1 y acc
  else if y <? 100 then zfill 2 y acc
  else if y <? 1000 then zfill 3 y acc
  else zfill 4 y acc.

(** [dt.strftime("%d/%m/%Y %H:%M:%S.%f")] *)
Definition strftime_line (dt : datetime) : string :=
  zfill 2 (day dt) ("/" +:+ zfill 2 (month dt) ("/" +:+ strftime_Y (year dt)
    (" " +:+ zfill 2 (hour dt) (":" +:+ zfill 2 (minute dt)
    (":" +:+ zfill 2 (second dt) ("." +:+ zfill 6 (microsecond dt) "")))))).

(** [dt.strftime("%Y")] *)
Definition strftime_year (dt : datetime) : string := strftime_Y (year dt) "".

(** [dt.strftime("%Y_%m_%d")] *)
Definition strftime_date (dt : datetime) : string :=
  strftime_Y (year dt) ("_" +:+ zfill 2 (month dt) ("_" +:+ zfill 2 (day dt) "")).

End PyDatetime.

(** ** Log records *)

Inductive message : Set :=
  | SkippingInvalidLine (line file_path : string)
  | Appended (n : nat) (output_file_path : string)
  | FailedToConvert (file_path : string) (e : exn)
  | DetectedNew (src_path : string)
  | Checking (file_path : string) (last_modified : Z)
  | Processing (file_path : string)
  | Disappeared (file_path : string)
  | ErrorProcessing (file_path : string) (e : exn).

Inductive log_record : Set :=
  | LogInfo (m : message)
  | LogWarning (m : message)
  | LogError (m : message).

(** ** The file system *)

Module Fs.

Record file : Set := mkFile
  { st_mtime : Z; st_ctime : Z;
    readable : bool; appendable : bool;
    data : string }.

(** What a path names: a regular file, a directory, or something that
    cannot be reached ([stat] is refused).  A path that names nothing
    is absent from the map.  Directories are not nested in the map: a
    path is looked up as a whole, and the map does not know of two
    paths that name the same file. *)
Inductive node : Set :=
  | RegFile (f : file)
  | Directory (st_mtime : Z)
  | Denied.

Abbreviation fs := (gmap string node).

(** [os.path.getmtime] *)
Definition getmtime (w : fs) (p : string) : result Z :=
  match w !! p with
  | None => Raise FileNotFoundError
  | Some Denied => Raise PermissionError
  | Some (Directory t) => Ok t
  | Some (RegFile f) => Ok (st_mtime f)
  end.

(** [os.path.getctime] *)
Definition getctime (w : fs) (p : string) : result Z :=
  match w !! p with
  | None => Raise FileNotFoundError
  | Some Denied => Raise PermissionError
  | Some (Directory t) => Ok t
  | Some (RegFile f) => Ok (st_ctime f)
  end.

(** [os.path.isfile] *)
Definition isfile (w : fs) (p : string) : bool :=
  match w !! p with
  | Some (RegFile _) => true
  | _ => false
  end.

(** [open(p, 'r', encoding='utf-8', errors='ignore')] followed by
    [f.readlines()] *)
Definition read_lines (w : fs) (p : string) : result (list string) :=
  match w !! p with
  | None => Raise FileNotFoundError
  | Some Denied => Raise PermissionError
  | Some (Directory _) => Raise IsADirectoryError
  | Some (RegFile f) =>
      if readable f then Ok (PyStr.readlines (data f)) else Raise PermissionError
  end.

Definition sep : string := "/".

(** [os.path.join a b] *)
Definition join (a b : string) : string :=
  if PyStr.startswith b sep then b
  else if String.eqb a "" || PyStr.endswith a sep then a +:+ b
  else a +:+ sep +:+ b.

(** The directories on the way to [rest], read after [pre]: the path
    as it stands before each separator (a run of separators counts
    once, and nothing is listed for what stands before a leading
    separator, the root), and last the whole path. *)
Fixpoint ancestors_from (pre rest : string) : list string :=
  match rest with
  | EmptyString => [pre]
  | String c rest' =>
      (if Ascii.eqb c "/" && negb (String.eqb pre "" || PyStr.endswith pre sep)
       then [pre] else [])
      ++ ancestors_from (pre +:+ String c "") rest'
  end.

(** The chain [os.makedirs(p)] goes through, outermost directory first:
    the heads that [os.path.split] cuts off [p], one after the other,
    and [p] itself.  [ancestors "a/b/c"] is ["a"; "a/b"; "a/b/c"]. *)
Definition ancestors (p : string) : list string := ancestors_from "" p.

(** [os.makedirs(d, exist_ok=True)] along the chain [dirs] of [d]:
    every missing directory is made, at time [t].  A regular file on
    the way raises [NotADirectoryError], a regular file at [d] itself
    [FileExistsError], a refused access [PermissionError]; what was
    made before stays. *)
Fixpoint makedirs (t : Z) (dirs : list string) (w : fs) : fs * result unit :=
  match dirs with
  | [] => (w, Ok tt)
  | d :: rest =>
      match w !! d with
      | None => makedirs t rest (<[d := Directory t]> w)
      | Some (Directory _) => makedirs t rest w
      | Some (RegFile _) =>
          (w, Raise (match rest with
                     | [] => FileExistsError
                     | _ :: _ => NotADirectoryError
                     end))
      | Some Denied => (w, Raise PermissionError)
      end
  end.

(** [open(p, 'a', encoding='utf-8')]: a missing file is created empty,
    at time [t]. *)
Definition open_append (t : Z) (p : string) (w : fs) : result fs :=
  match w !! p with
  | None => Ok (<[p := RegFile (mkFile t t true true "")]> w)
  | Some (RegFile f) => if appendable f then Ok w else Raise PermissionError
  | Some (Directory _) => Raise IsADirectoryError
  | Some Denied => Raise PermissionError
  end.

(** [f.write(s)] on the file opened for appending at [p], at time [t]. *)
Definition write (t : Z) (p : string) (s : string) (w : fs) : fs :=
  match w !! p with
  | Some (RegFile f) =>
      <[p := RegFile (mkFile t (st_ctime f) (readable f) (appendable f)
                             (data f +:+ s))]> w
  | _ => w
  end.

(** [f.writelines(ls)] *)
Definition writelines (t : Z) (p : string) (ls : list string) (w : fs) : fs :=
  fold_left (fun w l => write t p l w) ls w.

End Fs.

(** ** [convert_lr_to_epic] *)

Module Convert.

Import PyDatetime.

Definition newline : string := String PyStr.lf "".
Definition header1 : string := "EPIC LR Log File" +:+ newline +:+ newline.
Definition header2 : string := "Date,LR" +:+ newline.

(** What the loop body does with one line. *)
Inductive line_outcome : Set :=
  | Skipped                       (* [continue]: not two fields *)
  | Converted (converted_line : string)
  | Invalid                       (* [ValueError]: warning logged *)
  | Aborted (e : exn).            (* any other exception leaves the loop *)

(** The body of the inner [try]. *)
Definition convert_fields (base_time : datetime) (offset intensity : string)
  : result string :=
  do time_offset <- PyFloat.float_of_string offset;
  do delta <- timedelta_of_seconds time_offset;
  do new_time <- add base_time delta;
  Ok (strftime_line new_time +:+ "," +:+ intensity +:+ newline).

Definition convert_line (base_time : datetime) (line : string) : line_outcome :=
  match PyStr.split PyStr.tab (PyStr.strip line) with
  | [offset; intensity] =>
      match convert_fields base_time offset intensity with
      | Ok converted_line => Converted converted_line
      | Raise ValueError => Invalid
      | Raise e => Aborted e
      end
  | _ => Skipped
  end.

(** The [for line in lines] loop: the converted lines so far, the log
    so far, and whether an exception left the loop. *)
Fixpoint convert_lines (base_time : datetime) (file_path : string)
    (lines : list string) (converted_lines : list string) (log : list log_record)
  : list log_record * result (list string) :=
  match lines with
  | [] => (log, Ok converted_lines)
  | line :: rest =>
      match convert_line base_time line with
      | Skipped => convert_lines base_time file_path rest converted_lines log
      | Converted l =>
          convert_lines base_time file_path rest (converted_lines ++ [l]) log
      | Invalid =>
          convert_lines base_time file_path rest converted_lines
            (log ++ [LogWarning (SkippingInvalidLine (PyStr.strip line) file_path)])
      | Aborted e => (log, Raise e)
      end
  end.

Definition dated_output_dir (output_base_dir : string) (now : datetime) : string :=
  Fs.join (Fs.join output_base_dir (strftime_year now)) (strftime_date now).

(** The directories [os.makedirs(dated_output_dir, exist_ok=True)] goes
    through: the base directory and the directories above it, the
    directory of the year and the dated directory. *)
Definition output_dirs (output_base_dir : string) (now : datetime) : list string :=
  Fs.ancestors (dated_output_dir output_base_dir now).

Definition output_file (output_base_dir : string) (now : datetime) : string :=
  Fs.join (dated_output_dir output_base_dir now) "LR.txt".

(** The body of the outer [try] of [convert_lr_to_epic], run when the
    clock reads [clock] on the file system [w]: the file system and the
    log records it leaves, and either the exception that left it or, at
    its end, the lines written and the file they went to. *)
Definition convert_body (file_path output_base_dir : string)
    (clock : Z) (w : Fs.fs)
  : Fs.fs * list log_record * result (list string * string) :=
  match (do c <- Fs.getctime w file_path; fromtimestamp c) with
  | Raise e => (w, [], Raise e)
  | Ok base_time =>
  match Fs.read_lines w file_path with
  | Raise e => (w, [], Raise e)
  | Ok lines =>
  match convert_lines base_time file_path lines [] [] with
  | (log, Raise e) => (w, log, Raise e)
  | (log, Ok converted_lines) =>
  match fromtimestamp clock with
  | Raise e => (w, log, Raise e)
  | Ok now =>
  match Fs.makedirs clock (output_dirs output_base_dir now) w with
  | (w1, Raise e) => (w1, log, Raise e)
  | (w1, Ok _) =>
      let output_file_path := output_file output_base_dir now in
      let file_exists := Fs.isfile w1 output_file_path in
      match Fs.open_append clock output_file_path w1 with
      | Raise e => (w1, log, Raise e)
      | Ok w2 =>
          let w3 :=
            if file_exists then w2
            else Fs.write clock output_file_path header2
                   (Fs.write clock output_file_path header1 w2) in
          (Fs.writelines clock output_file_path converted_lines w3,
           log ++ [LogInfo (Appended (length converted_lines) output_file_path)],
           Ok (converted_lines, output_file_path))
      end
  end end end end end.

(** [convert_lr_to_epic(file_path, output_base_dir)]: the body, and the
    outer [except Exception], which logs what the body raised.  The
    function itself never raises. *)
Definition convert_lr_to_epic (file_path output_base_dir : string)
    (clock : Z) (w : Fs.fs) : Fs.fs * list log_record :=
  match convert_body file_path output_base_dir clock w with
  | (w', log, Ok _) => (w', log)
  | (w', log, Raise e) => (w', log ++ [LogError (FailedToConvert file_path e)])
  end.

End Convert.

(** ** Python dictionaries with string keys

    A [dict] keeps its items in insertion order; assigning to a key that
    is present keeps the key where it is. *)

Module PyDict.

Section Dict.
Context {V : Type}.

Definition dict : Type := list (string * V).

Definition keys (d : dict) : list string := map fst d.

Fixpoint get (d : dict) (k : string) : option V :=
  match d with
  | [] => None
  | (k', v) :: d' => if String.eqb k k' then Some v else get d' k
  end.

(** [d[k] = v] *)
Fixpoint set (d : dict) (k : string) (v : V) : dict :=
  match d with
  | [] => [(k, v)]
  | (k', v') :: d' =>
      if String.eqb k k' then (k, v) :: d' else (k', v') :: set d' k v
  end.

(** [d.pop(k, None)] (a key stands once in a [dict], see [wf]) *)
Fixpoint pop (d : dict) (k : string) : dict :=
  match d with
  | [] => []
  | (k', v') :: d' =>
      if String.eqb k k' then pop d' k else (k', v') :: pop d' k
  end.

(** Every key at most once: what the operations keep. *)
Definition wf (d : dict) : Prop := List.NoDup (keys d).
End Dict.

Arguments dict V : clear implicits.

End PyDict.

(** ** [LRMetaDataHandler] *)

Module Handler.

Import PyDict.

Definition seconds (n : Z) : Z := n * PyDatetime.us_per_second.

Record handler : Type := mkHandler
  { output_dir : string;
    inactivity_period : Z;
    file_timestamps : dict Z;            (* path -> last time we saw activity *)
    processed_mtimes : gmap string Z }.  (* path -> last mtime we already processed *)

(** [LRMetaDataHandler(output_dir, inactivity_period)] *)
Definition init (output_dir : string) (inactivity_period : Z) : handler :=
  mkHandler output_dir inactivity_period [] ∅.

(** The default [inactivity_period=30]. *)
Definition default_inactivity_period : Z := seconds 30.

Definition with_timestamps (h : handler) (ts : dict Z) : handler :=
  mkHandler (output_dir h) (inactivity_period h) ts (processed_mtimes h).

Definition with_processed (h : handler) (pm : gmap string Z) : handler :=
  mkHandler (output_dir h) (inactivity_period h) (file_timestamps h) pm.

(** [self._should_track(path)] *)
Definition _should_track (h : handler) (w : Fs.fs) (path : string) : result bool :=
  match Fs.getmtime w path with
  | Raise FileNotFoundError => Ok false
  | Raise e => Raise e
  | Ok mtime =>
      let last := default 0 (processed_mtimes h !! path) in
      Ok (last <? mtime)
  end.

Record event : Set := mkEvent { is_directory : bool; src_path : string }.

(** [self.on_created(event)], with [now] the reading of [time.time()].
    The handler afterwards and the log records, or the exception that
    leaves the callback. *)
Definition on_created (h : handler) (w : Fs.fs) (now : Z) (ev : event)
  : result (handler * list log_record) :=
  if is_directory ev then Ok (h, [])
  else if PyStr.endswith (src_path ev) ".dat" then
    do track <- _should_track h w (src_path ev);
    if track : bool then
      Ok (with_timestamps h (set (file_timestamps h) (src_path ev) now),
          [LogInfo (DetectedNew (src_path ev))])
    else Ok (h, [])
  else Ok (h, []).

(** [self.on_modified(event)] *)
Definition on_modified (h : handler) (w : Fs.fs) (now : Z) (ev : event)
  : result (handler * list log_record) :=
  if is_directory ev then Ok (h, [])
  else if PyStr.endswith (src_path ev) ".dat" then
    do track <- _should_track h w (src_path ev);
    if track : bool then
      Ok (with_timestamps h (set (file_timestamps h) (src_path ev) now), [])
    else Ok (h, [])
  else Ok (h, []).

(** The test of the first loop of [check_and_process_files]. *)
Definition inactive (h : handler) (current_time : Z) (item : string * Z) : bool :=
  inactivity_period h <? current_time - snd item.

Definition files_to_process (h : handler) (current_time : Z) : list string :=
  map fst (List.filter (fun item => inactive h current_time item) (file_timestamps h)).

Definition checking_log (h : handler) : list log_record :=
  map (fun item : string * Z => LogInfo (Checking (fst item) (snd item)))
      (file_timestamps h).

(** The body of the second loop, for one path.  [clock] is what the
    clock reads while [file_path] is converted. *)
Definition process_file (clock : string -> Z) (h : handler) (w : Fs.fs)
    (file_path : string) : handler * Fs.fs * list log_record :=
  match Fs.getmtime w file_path with
  | Raise FileNotFoundError =>
      (with_timestamps h (pop (file_timestamps h) file_path), w,
       [LogInfo (Processing file_path); LogWarning (Disappeared file_path)])
  | Raise e =>
      (h, w, [LogInfo (Processing file_path);
              LogError (ErrorProcessing file_path e)])
  | Ok latest_mtime =>
      let '(w', log) :=
        Convert.convert_lr_to_epic file_path (output_dir h) (clock file_path) w in
      let h1 := with_processed h (<[file_path := latest_mtime]> (processed_mtimes h)) in
      (with_timestamps h1 (pop (file_timestamps h1) file_path), w',
       LogInfo (Processing file_path) :: log)
  end.

(** The second loop. *)
Fixpoint process_files (clock : string -> Z) (h : handler) (w : Fs.fs)
    (files : list string) : handler * Fs.fs * list log_record :=
  match files with
  | [] => (h, w, [])
  | file_path :: rest =>
      let '(h1, w1, log1) := process_file clock h w file_path in
      let '(h2, w2, log2) := process_files clock h1 w1 rest in
      (h2, w2, log1 ++ log2)
  end.

(** [self.check_and_process_files()], with [current_time] the reading
    of [time.time()] at its start. *)
Definition check_and_process_files (h : handler) (w : Fs.fs)
    (current_time : Z) (clock : string -> Z)
  : handler * Fs.fs * list log_record :=
  let '(h', w', log) := process_files clock h w (files_to_process h current_time) in
  (h', w', checking_log h ++ log).

End Handler.

(** ** Runs of the watcher

    The callbacks and the poll loop act on one handler, one after the
    other; between two of them other programs may change the file
    system. *)

Module Run.

Import Handler.

Inductive action : Type :=
  | Created (now : Z) (ev : event)
  | Modified (now : Z) (ev : event)
  | Poll (current_time : Z) (clock : string -> Z)
  | World (w : Fs.fs).

(** A callback that raises leaves the handler as it was. *)
Definition callback (h : handler) (w : Fs.fs)
    (r : result (handler * list log_record)) : handler * Fs.fs * list log_record :=
  match r with
  | Ok (h', log) => (h', w, log)
  | Raise _ => (h, w, [])
  end.

Definition step (h : handler) (w : Fs.fs) (a : action)
  : handler * Fs.fs * list log_record :=
  match a with
  | Created now ev => callback h w (on_created h w now ev)
  | Modified now ev => callback h w (on_modified h w now ev)
  | Poll current_time clock => check_and_process_files h w current_time clock
  | World w' => (h, w', [])
  end.

Fixpoint run (h : handler) (w : Fs.fs) (acts : list action)
  : handler * Fs.fs * list log_record :=
  match acts with
  | [] => (h, w, [])
  | a :: rest =>
      let '(h1, w1, log1) := step h w a in
      let '(h2, w2, log2) := run h1 w1 rest in
      (h2, w2, log1 ++ log2)
  end.

(** The file at [path] is no newer than [t], if it can be stat-ed. *)
Definition not_newer (path : string) (t : Z) (w : Fs.fs) : Prop :=
  forall mtime, Fs.getmtime w path = Ok mtime -> mtime <= t.

(** [path] is no newer than [t] whenever an action of the run starts. *)
Fixpoint stays_old (path : string) (t : Z) (h : handler) (w : Fs.fs)
    (acts : list action) : Prop :=
  match acts with
  | [] => True
  | a :: rest =>
      not_newer path t w /\
      let '(h1, w1, _) := step h w a in stays_old path t h1 w1 rest
  end.


(** The log records that say [path] is being dispatched. *)
Definition is_processing (path : string) (r : log_record) : bool :=
  match r with
  | LogInfo (Processing q) => String.eqb path q
  | _ => false
  end.

Definition dispatches (path : string) (log : list log_record) : nat :=
  length (List.filter (is_processing path) log).

End Run.

(** ** What the properties speak of *)

Module Observe.

Import PyDict Handler Run.

(** The text of a regular file. *)
Definition contents (w : Fs.fs) (p : string) : option string :=
  match w !! p with
  | Some (Fs.RegFile f) => Some (Fs.data f)
  | _ => None
  end.

(** The lines of a list, one after the other. *)
Definition joined (ls : list string) : string :=
  fold_right String.append "" ls.

(** How often the character [c] occurs in [s]. *)
Fixpoint count (c : ascii) (s : string) : nat :=
  match s with
  | EmptyString => 0%nat
  | String c' s' => ((if Ascii.eqb c' c then 1 else 0) + count c s')%nat
  end.

(** What one input line adds to the converted lines, and to the log. *)
Definition converted_of (base_time : PyDatetime.datetime) (line : string)
  : list string :=
  match Convert.convert_line base_time line with
  | Convert.Converted l => [l]
  | _ => []
  end.

Definition warning_of (base_time : PyDatetime.datetime) (file_path line : string)
  : list log_record :=
  match Convert.convert_line base_time line with
  | Convert.Invalid =>
      [LogWarning (SkippingInvalidLine (PyStr.strip line) file_path)]
  | _ => []
  end.

(** The line does not make the loop raise. *)
Definition in_range (base_time : PyDatetime.datetime) (line : string) : Prop :=
  forall e, Convert.convert_line base_time line <> Convert.Aborted e.

(** The records [convert_lr_to_epic] writes. *)
Definition from_convert (r : log_record) : Prop :=
  match r with
  | LogWarning (SkippingInvalidLine _ _)
  | LogInfo (Appended _ _)
  | LogError (FailedToConvert _ _) => True
  | _ => False
  end.

(** What [process_file] leaves alone, and what it does to its own path. *)
Record process_file_spec (h : handler) (path : string)
    (h' : handler) (log : list log_record) : Prop :=
  { pfs_output_dir : output_dir h' = output_dir h;
    pfs_period : inactivity_period h' = inactivity_period h;
    pfs_other_ts : forall q, q <> path ->
      get (file_timestamps h') q = get (file_timestamps h) q;
    pfs_other_pm : forall q, q <> path ->
      processed_mtimes h' !! q = processed_mtimes h !! q;
    pfs_keys : forall q, In q (keys (file_timestamps h')) ->
      In q (keys (file_timestamps h));
    pfs_wf : wf (file_timestamps h) -> wf (file_timestamps h');
    pfs_dispatches : forall q,
      dispatches q log = if String.eqb q path then 1%nat else 0%nat }.

(** The same for the whole second loop. *)
Record process_files_spec (h : handler) (files : list string)
    (h' : handler) (log : list log_record) : Prop :=
  { pls_output_dir : output_dir h' = output_dir h;
    pls_period : inactivity_period h' = inactivity_period h;
    pls_other_ts : forall q, ~ In q files ->
      get (file_timestamps h') q = get (file_timestamps h) q;
    pls_other_pm : forall q, ~ In q files ->
      processed_mtimes h' !! q = processed_mtimes h !! q;
    pls_keys : forall q, In q (keys (file_timestamps h')) ->
      In q (keys (file_timestamps h));
    pls_wf : wf (file_timestamps h) -> wf (file_timestamps h');
    pls_dispatches : forall q,
      dispatches q log = length (List.filter (fun p => String.eqb q p) files) }.

(** The text the output file starts from: what it holds, or the header
    when there is no such file. *)
Definition prior (w : Fs.fs) (out : string) : string :=
  default (Convert.header1 +:+ Convert.header2) (contents w out).

(** A conversion that reaches its end: what it read, where it wrote,
    and what the files hold afterwards. *)

Record converted (file_path output_base_dir : string) (clock : Z) (w : Fs.fs)
    (w' : Fs.fs) (log : list log_record) (lines : list string) (out : string)
  : Prop :=
  { cv_base : exists c base_time ls warnings,
      Fs.getctime w file_path = Ok c
      /\ PyDatetime.fromtimestamp c = Ok base_time
      /\ Fs.read_lines w file_path = Ok ls
      /\ Convert.convert_lines base_time file_path ls [] [] = (warnings, Ok lines)
      /\ log = warnings ++ [LogInfo (Appended (length lines) out)];
    cv_out : exists now,
      PyDatetime.fromtimestamp clock = Ok now /\ out = Convert.output_file output_base_dir now;
    cv_text : contents w' out
              = Some (prior w out +:+ joined lines);
    cv_others : forall q, out <> q -> contents w' q = contents w q }.

End Observe.

(** ** Sample worlds *)

Module Examples.

Import Handler.

Definition tb : string := String PyStr.tab "".
Definition nl : string := String PyStr.lf "".

Definition dat : string := "d/a.dat".
Definition dat2 : string := "d/b.dat".

(** 2024-01-01T10:00:00 *)
Definition t_2024 : Z := 1704103200000000.
(** 2025-03-07T11:15:30 *)
Definition t_2025 : Z := 1741346130000000.

Definition regular (mtime : Z) (readable : bool) (text : string) : Fs.node :=
  Fs.RegFile (Fs.mkFile mtime t_2024 readable true text).

(** A handler that saw activity on [dat] at time 0 and on [dat2] one
    second later. *)
Definition h_two : handler :=
  mkHandler "out" default_inactivity_period [(dat, 0); (dat2, seconds 1)] ∅.

Definition h_one : handler :=
  mkHandler "out" default_inactivity_period [(dat, 0)] ∅.

Definition h_none : handler := init "out" default_inactivity_period.

Definition w_denied : Fs.fs := {[ dat := Fs.Denied ]}.
Definition w_unreadable : Fs.fs := {[ dat := regular 5 false "" ]}.
Definition w_one (text : string) : Fs.fs := {[ dat := regular 5 true text ]}.
(** [dat] is gone, [dat2] is there. *)
Definition w_second_only : Fs.fs :=
  {[ dat2 := regular 7 true ("1.5" +:+ tb +:+ "7" +:+ nl) ]}.

Definition clock_2025 : string -> Z := fun _ => t_2025.

Definition touch_dat : event := mkEvent false dat.




Definition high : string := "2.5" +:+ tb +:+ "HIGH" +:+ nl.
Definition high_line : string := "01/01/2024 10:00:02.500000,HIGH" +:+ nl.

Definition base_2024 : PyDatetime.datetime :=
  PyDatetime.mkDatetime 2024 1 1 10 0 0 0.

(** A malformed line between two good ones. *)
Definition bad_line : string := " bad_line" +:+ nl.
Definition skip_text : string :=
  "0.0" +:+ tb +:+ "5" +:+ nl +:+ bad_line +:+ "1.5" +:+ tb +:+ "7" +:+ nl.

Definition seven_line : string := "01/01/2024 10:00:01.500000,7" +:+ nl.

(** Two source files, converted one after the other on the same day. *)
Definition w_both : Fs.fs :=
  {[ dat := regular 5 true high;
     dat2 := regular 7 true ("1.5" +:+ tb +:+ "7" +:+ nl) ]}.

Definition first_conv : Fs.fs * list log_record * result (list string * string) :=
  Convert.convert_body dat "out" t_2025 w_both.

Definition second_conv : Fs.fs * list log_record * result (list string * string) :=
  Convert.convert_body dat2 "out" (t_2025 + seconds 60) first_conv.1.1.

(** A line whose first field is no number. *)
Definition junk_line : string := "abc" +:+ tb +:+ "7" +:+ nl.

(** A first field that [float()] reads as NaN. *)
Definition nan_line : string := "nan" +:+ tb +:+ "X" +:+ nl.

(** An offset beyond what a [timedelta] holds. *)
Definition huge_line : string := "1e300" +:+ tb +:+ "X" +:+ nl.

(** An intensity with commas in it. *)
Definition comma_line : string := "1" +:+ tb +:+ "a,b,c" +:+ nl.

(** The dispatch of [dat], last modified at 5. *)
Definition first_pass : handler * Fs.fs * list log_record :=
  process_file clock_2025 h_one (w_one high) dat.

(** After a dispatch of [dat]: the same events again, and polls. *)
Definition replay_actions : list Run.action :=
  [Run.Modified (seconds 50) touch_dat;
   Run.Created (seconds 51) touch_dat;
   Run.Poll (seconds 90) clock_2025;
   Run.Poll (seconds 130) clock_2025].

Definition replay : handler * Fs.fs * list log_record :=
  Run.run first_pass.1.1 first_pass.1.2 replay_actions.

(** [dat] written again, at 9. *)
Definition w_newer : Fs.fs := {[ dat := regular 9 true (high +:+ high) ]}.

Definition out_2025 : string := "out/2025/2025_03_07/LR.txt".

End Examples.

(** ** What the further properties speak of *)

Module Tally.

Import PyDict Handler Run.

(** The path is one the callbacks accept. *)
Definition ends_dat (path : string) : Prop := PyStr.endswith path ".dat" = true.

(** The records of the dispatcher's own [except Exception] for [path]. *)
Definition is_stat_error (path : string) (r : log_record) : bool :=
  match r with
  | LogError (ErrorProcessing q _) => String.eqb path q
  | _ => false
  end.

Definition stat_errors (path : string) (log : list log_record) : nat :=
  length (List.filter (is_stat_error path) log).

(** One when [path] has an entry in [file_timestamps], zero when not. *)
Definition tracked (h : handler) (path : string) : nat :=
  match get (file_timestamps h) path with
  | Some _ => 1%nat
  | None => 0%nat
  end.

(** The paths of the "Processing file" records, in the order of the log. *)
Fixpoint processing_paths (log : list log_record) : list string :=
  match log with
  | [] => []
  | LogInfo (Processing q) :: rest => q :: processing_paths rest
  | _ :: rest => processing_paths rest
  end.

(** An action that is no event on [path]. *)
Definition no_event_on (path : string) (a : action) : Prop :=
  match a with
  | Created _ ev | Modified _ ev => src_path ev <> path
  | Poll _ _ | World _ => True
  end.

(** The items a poll at [current_time] leaves in their inactivity window. *)
Definition still_active (h : handler) (current_time : Z) (d : dict Z) : dict Z :=
  List.filter (fun item => negb (inactive h current_time item)) d.

(** Every key once, every tracked and every marked path a [.dat] path. *)
Definition well_kept (h : handler) : Prop :=
  wf (file_timestamps h)
  /\ Forall ends_dat (keys (file_timestamps h))
  /\ forall q, is_Some (processed_mtimes h !! q) -> ends_dat q.

(** The stripped line holds exactly one tab. *)
Definition one_tab (line : string) : bool :=
  Nat.eqb (Observe.count PyStr.tab (PyStr.strip line)) 1.

(** The character [c] does not occur in [s]. *)
Fixpoint without (c : ascii) (s : string) : Prop :=
  match s with
  | EmptyString => True
  | String x s' => x <> c /\ without c s'
  end.

(** A line as [readlines] gives it: no line feed but, maybe, the last
    character. *)
Definition one_line (l : string) : Prop :=
  exists body, without PyStr.lf body /\ (l = body \/ l = body +:+ Convert.newline).

End Tally.

(** ** More sample worlds *)

Module Samples.

Import Handler.

(** Three polls, five seconds apart, while the [stat] of [dat] is
    refused. *)
Definition refused_polls : list Run.action :=
  [Run.Poll (seconds 31) Examples.clock_2025;
   Run.Created (seconds 33) (mkEvent false Examples.dat2);
   Run.Poll (seconds 36) Examples.clock_2025;
   Run.Poll (seconds 41) Examples.clock_2025].

Definition refused_run : handler * Fs.fs * list log_record :=
  Run.run Examples.h_one Examples.w_denied refused_polls.



(** Polls and events on [dat2] only, from a handler that tracks nothing. *)
Definition other_actions : list Run.action :=
  [Run.Created (seconds 1) (mkEvent false Examples.dat2);
   Run.World Examples.w_both;
   Run.Modified (seconds 2) (mkEvent false Examples.dat2);
   Run.Poll (seconds 40) Examples.clock_2025].

Definition other_run : handler * Fs.fs * list log_record :=
  Run.run Examples.h_none Examples.w_both other_actions.

(** [dat] past its inactivity window, [dat2] still within it. *)
Definition h_mixed : handler :=
  mkHandler "out" default_inactivity_period
    [(Examples.dat, 0); (Examples.dat2, seconds 20)] ∅.

Definition mixed_poll : handler * Fs.fs * list log_record :=
  check_and_process_files h_mixed Examples.w_both (seconds 31) Examples.clock_2025.


(** Blank lines, a comment, a line with two tabs. *)
Definition no_data : string :=
  Examples.nl +:+ "# header" +:+ Examples.nl
  +:+ "1" +:+ Examples.tb +:+ "2" +:+ Examples.tb +:+ "3" +:+ Examples.nl.

(** A line of each kind. *)
Definition mixed_text : string :=
  Examples.high +:+ Examples.bad_line +:+ Examples.junk_line +:+ Examples.comma_line.

End Samples.

(** * Properties *)

(** ** Dictionaries *)

Module PyDictFacts.

Import PyDict.

Section Facts.
Context {V : Type}.
Implicit Types (d : dict V) (k : string) (v : V).

Lemma get_set_eq d k v : get (set d k v) k = Some v.
Proof.
  induction d as [|[k' v'] d IH]; simpl.
  - now rewrite String.eqb_refl.
  - destruct (String.eqb k k') eqn:E; simpl.
    + now rewrite String.eqb_refl.
    + now rewrite E.
Qed.

Lemma get_set_ne d k k' v : k <> k' -> get (set d k v) k' = get d k'.
Proof.
  intros Hne. induction d as [|[k0 v0] d IH]; simpl.
  - destruct (String.eqb_spec k' k); congruence.
  - destruct (String.eqb_spec k k0) as [->|Hk]; simpl.
    + destruct (String.eqb_spec k' k0); congruence.
    + now rewrite IH.
Qed.

Lemma get_pop_eq d k : get (pop d k) k = None.
Proof.
  induction d as [|[k' v'] d IH]; simpl; [reflexivity|].
  destruct (String.eqb k k') eqn:E; simpl; [assumption|].
  now rewrite E.
Qed.

Lemma get_pop_ne d k k' : k <> k' -> get (pop d k) k' = get d k'.
Proof.
  intros Hne. induction d as [|[k0 v0] d IH]; simpl; [reflexivity|].
  destruct (String.eqb_spec k k0) as [->|Hk]; simpl.
  - destruct (String.eqb_spec k' k0); congruence.
  - now rewrite IH.
Qed.

Lemma get_None_keys d k : get d k = None <-> ~ In k (keys d).
Proof.
  induction d as [|[k' v'] d IH]; simpl; [tauto|].
  destruct (String.eqb_spec k k') as [->|Hk].
  - split; [discriminate | intros H; exfalso; apply H; now left].
  - rewrite IH. split; [intros H [->|]; tauto | tauto].
Qed.

Lemma get_Some_keys d k v : get d k = Some v -> In k (keys d).
Proof.
  intros H. destruct (in_dec string_dec k (keys d)) as [|Hn]; [assumption|].
  apply get_None_keys in Hn. congruence.
Qed.

Lemma keys_pop d k k' : In k' (keys (pop d k)) <-> In k' (keys d) /\ k <> k'.
Proof.
  induction d as [|[k0 v0] d IH]; simpl; [tauto|].
  destruct (String.eqb_spec k k0) as [->|Hk]; simpl; rewrite IH.
  - split; [tauto | intros [[->|] ?]; tauto].
  - split; [intros [->|]; [split; [now left | congruence] | tauto] | tauto].
Qed.

Lemma keys_set d k v k' : In k' (keys (set d k v)) <-> In k' (keys d) \/ k = k'.
Proof.
  induction d as [|[k0 v0] d IH]; simpl; [tauto|].
  destruct (String.eqb_spec k k0) as [->|Hk]; simpl; [tauto|].
  rewrite IH. tauto.
Qed.

Lemma wf_pop d k : wf d -> wf (pop d k).
Proof.
  unfold wf. induction d as [|[k0 v0] d IH]; simpl; intros H; [assumption|].
  inversion H as [|? ? Hn Hd]; subst.
  destruct (String.eqb k k0); simpl; [auto|].
  constructor; [|auto].
  intros Hin. apply keys_pop in Hin. tauto.
Qed.

Lemma wf_set d k v : wf d -> wf (set d k v).
Proof.
  unfold wf. induction d as [|[k0 v0] d IH]; simpl; intros H.
  - constructor; [tauto | constructor].
  - inversion H as [|? ? Hn Hd]; subst.
    destruct (String.eqb_spec k k0) as [->|Hk]; simpl.
    + now constructor.
    + constructor; [|auto].
      intros Hin. apply keys_set in Hin. destruct Hin; congruence.
Qed.

End Facts.

End PyDictFacts.

(** ** The dispatcher, one file at a time *)

Module HandlerFacts.

Import PyDict PyDictFacts Handler Run Observe.

Lemma convert_lines_log base_time file_path lines :
  forall converted log log' r,
    Convert.convert_lines base_time file_path lines converted log = (log', r) ->
    Forall from_convert log -> Forall from_convert log'.
Proof.
  induction lines as [|line rest IH]; simpl; intros converted log log' r H Hlog.
  - now inversion H; subst.
  - destruct (Convert.convert_line base_time line).
    + eauto.
    + eauto.
    + eapply IH; [eassumption|].
      apply Forall_app; split; [assumption|]. now repeat constructor.
    + now inversion H; subst.
Qed.

Lemma convert_body_log file_path base clock w w' log r :
  Convert.convert_body file_path base clock w = (w', log, r) ->
  Forall from_convert log.
Proof.
  unfold Convert.convert_body. intros H.
  destruct (rbind _ _); [|inversion H; subst; constructor].
  destruct (Fs.read_lines _ _); [|inversion H; subst; constructor].
  destruct (Convert.convert_lines _ _ _ _ _) as [lg [cl|e]] eqn:E;
    apply convert_lines_log in E; try constructor;
    [|now inversion H; subst].
  destruct (PyDatetime.fromtimestamp clock); [|now inversion H; subst].
  destruct (Fs.makedirs _ _ _) as [w1 [[]|e]]; [|now inversion H; subst].
  destruct (Fs.open_append _ _ _); inversion H; subst; [|assumption].
  apply Forall_app; split; [assumption|]. now repeat constructor.
Qed.

Lemma convert_log file_path base clock w w' log :
  Convert.convert_lr_to_epic file_path base clock w = (w', log) ->
  Forall from_convert log.
Proof.
  unfold Convert.convert_lr_to_epic.
  destruct (Convert.convert_body _ _ _ _) as [[w1 lg] [x|e]] eqn:E;
    apply convert_body_log in E; intros H; inversion H; subst; [assumption|].
  apply Forall_app; split; [assumption|]. now repeat constructor.
Qed.

Lemma from_convert_dispatches path log :
  Forall from_convert log -> dispatches path log = 0%nat.
Proof.
  unfold dispatches. induction 1 as [|r log Hr _ IH]; [reflexivity|].
  simpl. destruct r as [[]|[]|[]]; simpl in *; try contradiction; assumption.
Qed.

Lemma dispatches_app path l1 l2 :
  dispatches path (l1 ++ l2) = (dispatches path l1 + dispatches path l2)%nat.
Proof. unfold dispatches. now rewrite List.filter_app, length_app. Qed.

Lemma dispatches_cons path r log :
  dispatches path (r :: log)
  = ((if is_processing path r then 1 else 0) + dispatches path log)%nat.
Proof. unfold dispatches. simpl. now destruct (is_processing path r). Qed.

Lemma process_file_ok clock h w path h' w' log :
  process_file clock h w path = (h', w', log) ->
  process_file_spec h path h' log.
Proof.
  unfold process_file. intros H.
  destruct (Fs.getmtime w path) as [t|e].
  - destruct (Convert.convert_lr_to_epic _ _ _ _) as [w1 clog] eqn:E.
    apply convert_log in E. inversion H; subst; clear H.
    split.
    + reflexivity.
    + reflexivity.
    + intros q Hq. now apply get_pop_ne.
    + intros q Hq. now apply lookup_insert_ne.
    + intros q Hq. apply keys_pop in Hq. tauto.
    + apply wf_pop.
    + intros q. rewrite dispatches_cons, (from_convert_dispatches q clog E).
      simpl. destruct (String.eqb q path); lia.
  - assert (Hpop : process_file_spec h path
              (with_timestamps h (pop (file_timestamps h) path))
              [LogInfo (Processing path); LogWarning (Disappeared path)]).
    { split.
      - reflexivity.
      - reflexivity.
      - intros q Hq. now apply get_pop_ne.
      - reflexivity.
      - intros q Hq. apply keys_pop in Hq. tauto.
      - apply wf_pop.
      - intros q. rewrite !dispatches_cons. simpl.
        destruct (String.eqb q path); reflexivity. }
    assert (Hkeep : forall e', process_file_spec h path h
              [LogInfo (Processing path); LogError (ErrorProcessing path e')]).
    { intros e'. split; try tauto; try reflexivity.
      intros q. rewrite !dispatches_cons. simpl.
      destruct (String.eqb q path); reflexivity. }
    destruct e; inversion H; subst; clear H; auto.
Qed.

Lemma process_files_app clock files1 files2 :
  forall h w,
    process_files clock h w (files1 ++ files2)
    = let '(h1, w1, log1) := process_files clock h w files1 in
      let '(h2, w2, log2) := process_files clock h1 w1 files2 in
      (h2, w2, log1 ++ log2).
Proof.
  induction files1 as [|p files1 IH]; intros h w; simpl.
  - now destruct (process_files clock h w files2) as [[h2 w2] log2].
  - destruct (process_file clock h w p) as [[h1 w1] log1].
    rewrite IH.
    destruct (process_files clock h1 w1 files1) as [[h2 w2] log2].
    destruct (process_files clock h2 w2 files2) as [[h3 w3] log3].
    now rewrite app_assoc.
Qed.

Lemma process_files_ok clock files :
  forall h w h' w' log,
    process_files clock h w files = (h', w', log) ->
    process_files_spec h files h' log.
Proof.
  induction files as [|p files IH]; simpl; intros h w h' w' log H.
  - inversion H; subst. now split.
  - destruct (process_file clock h w p) as [[h1 w1] log1] eqn:E1.
    destruct (process_files clock h1 w1 files) as [[h2 w2] log2] eqn:E2.
    inversion H; subst; clear H.
    apply process_file_ok in E1. apply IH in E2.
    destruct E1, E2. split.
    + congruence.
    + congruence.
    + intros q Hq. simpl in Hq. rewrite pls_other_ts0 by tauto.
      apply pfs_other_ts0. intros ->. tauto.
    + intros q Hq. simpl in Hq. rewrite pls_other_pm0 by tauto.
      apply pfs_other_pm0. intros ->. tauto.
    + auto.
    + auto.
    + intros q. rewrite dispatches_app, pfs_dispatches0, pls_dispatches0.
      simpl. now destruct (String.eqb q p).
Qed.

Lemma files_to_process_keys h now path :
  In path (files_to_process h now) <->
  exists last, In (path, last) (file_timestamps h)
               /\ inactivity_period h < now - last.
Proof.
  unfold files_to_process. rewrite in_map_iff. split.
  - intros [[p last] [<- Hin]]. apply filter_In in Hin as [Hin Hf].
    exists last. split; [assumption|]. unfold inactive in Hf. simpl in *. lia.
  - intros [last [Hin Hlt]]. exists (path, last). split; [reflexivity|].
    apply filter_In. split; [assumption|]. unfold inactive. simpl.
    now apply Z.ltb_lt.
Qed.

Lemma get_In {V} (d : dict V) k v : wf d -> In (k, v) d -> get d k = Some v.
Proof.
  unfold wf. induction d as [|[k0 v0] d IH]; simpl; intros Hwf Hin; [contradiction|].
  inversion Hwf as [|? ? Hn Hd]; subst.
  destruct Hin as [Heq|Hin].
  - inversion Heq; subst. now rewrite String.eqb_refl.
  - destruct (String.eqb_spec k k0) as [->|Hk]; [|auto].
    exfalso. apply Hn. change (In (fst (k0, v)) (map fst d)). now apply in_map.
Qed.

Lemma NoDup_files_to_process h now :
  wf (file_timestamps h) -> List.NoDup (files_to_process h now).
Proof.
  unfold wf, files_to_process, keys.
  induction (file_timestamps h) as [|[k v] d IH]; simpl; intros H; [constructor|].
  inversion H as [|? ? Hn Hd]; subst.
  destruct (inactive h now (k, v)); simpl; [|auto].
  constructor; [|auto].
  intros Hin. apply Hn. apply in_map_iff in Hin as [[k' v'] [Hk Hin]].
  apply filter_In in Hin as [Hin _]. simpl in Hk. subst.
  change (In (fst (k, v')) (map fst d)). now apply in_map.
Qed.

End HandlerFacts.

(** ** The event filter and the dispatcher *)

Module Claims.

Import PyDict PyDictFacts Handler Run Observe HandlerFacts.

Lemma should_track_marker h w path T mtime :
  processed_mtimes h !! path = Some T ->
  Fs.getmtime w path = Ok mtime ->
  _should_track h w path = Ok (T <? mtime).
Proof. unfold _should_track. intros -> ->. reflexivity. Qed.

Lemma callback_untracked h w now ev (created : bool) :
  _should_track h w (src_path ev) = Ok false ->
  (if created then on_created h w now ev else on_modified h w now ev) = Ok (h, []).
Proof.
  intros H. destruct created; unfold on_created, on_modified;
    destruct (is_directory ev); try reflexivity;
    destruct (PyStr.endswith (src_path ev) ".dat"); try reflexivity;
    now rewrite H.
Qed.

(** What a callback can do: nothing, or stamp the path of its event. *)
Lemma callback_cases h w now ev (created : bool) :
  let r := if created then on_created h w now ev else on_modified h w now ev in
  (exists e, r = Raise e /\ _should_track h w (src_path ev) = Raise e)
  \/ r = Ok (h, [])
  \/ (_should_track h w (src_path ev) = Ok true /\
      exists log,
        r = Ok (with_timestamps h (set (file_timestamps h) (src_path ev) now), log)
        /\ forall q, dispatches q log = 0%nat).
Proof.
  destruct created; unfold on_created, on_modified; simpl;
    destruct (is_directory ev); auto;
    destruct (PyStr.endswith (src_path ev) ".dat"); auto;
    destruct (_should_track h w (src_path ev)) as [[|]|e]; simpl; eauto 8.
Qed.

Lemma checking_log_dispatches h path : dispatches path (checking_log h) = 0%nat.
Proof.
  unfold checking_log, dispatches.
  induction (file_timestamps h) as [|[k v] d IH]; simpl; auto.
Qed.

(** Once [path] carries the marker [T] and is not tracked, no action
    changes that while the file is no newer than [T]. *)
Lemma settled_step h w a path T h1 w1 log1 :
  processed_mtimes h !! path = Some T ->
  get (file_timestamps h) path = None ->
  not_newer path T w ->
  step h w a = (h1, w1, log1) ->
  processed_mtimes h1 !! path = Some T
  /\ get (file_timestamps h1) path = None
  /\ dispatches path log1 = 0%nat.
Proof.
  intros Hpm Hts Hold Hstep.
  assert (Hcb : forall now ev (created : bool),
             callback h w (if created then on_created h w now ev
                           else on_modified h w now ev) = (h1, w1, log1) ->
             processed_mtimes h1 !! path = Some T
             /\ get (file_timestamps h1) path = None
             /\ dispatches path log1 = 0%nat).
  { intros now ev created Hc.
    destruct (callback_cases h w now ev created) as [[e [Hr _]]|[Hr|[Ht [lg [Hr Hlg]]]]];
      cbv zeta in Hr; rewrite Hr in Hc; simpl in Hc; inversion Hc; subst; clear Hc;
      auto.
    split; [assumption|]. split; [|apply Hlg]. simpl.
    destruct (string_dec (src_path ev) path) as [Heq|Hne].
    - exfalso. rewrite Heq in Ht. unfold _should_track in Ht.
      destruct (Fs.getmtime w1 path) as [m|[]] eqn:Em; try discriminate.
      rewrite Hpm in Ht. simpl in Ht. specialize (Hold m Em).
      inversion Ht as [Hlt]. apply Z.ltb_lt in Hlt. lia.
    - now rewrite get_set_ne. }
  destruct a as [now ev|now ev|now clock|w'].
  - exact (Hcb now ev true Hstep).
  - exact (Hcb now ev false Hstep).
  - simpl in Hstep. unfold check_and_process_files in Hstep.
    destruct (process_files clock h w (files_to_process h now))
      as [[h2 w2] log2] eqn:E.
    inversion Hstep; subst; clear Hstep.
    apply process_files_ok in E. destruct E.
    assert (Hnin : ~ In path (files_to_process h now)).
    { intros Hin. apply files_to_process_keys in Hin as [last [Hin _]].
      apply get_None_keys in Hts. apply Hts.
      change (In (fst (path, last)) (map fst (file_timestamps h))).
      now apply in_map. }
    rewrite pls_other_pm0, pls_other_ts0 by assumption.
    split; [assumption|]. split; [assumption|].
    rewrite dispatches_app, checking_log_dispatches, pls_dispatches0. simpl.
    clear - Hnin. induction (files_to_process h now) as [|p l IH]; [reflexivity|].
    simpl in *. destruct (String.eqb_spec path p); [subst; tauto|]. tauto.
  - simpl in Hstep. inversion Hstep; subst. auto.
Qed.

Lemma settled_run acts :
  forall h w path T h' w' log,
    processed_mtimes h !! path = Some T ->
    get (file_timestamps h) path = None ->
    stays_old path T h w acts ->
    run h w acts = (h', w', log) ->
    processed_mtimes h' !! path = Some T
    /\ get (file_timestamps h') path = None
    /\ dispatches path log = 0%nat.
Proof.
  induction acts as [|a acts IH]; simpl; intros h w path T h' w' log Hpm Hts Hold Hrun.
  - inversion Hrun; subst. auto.
  - destruct Hold as [Hw Hrest].
    destruct (step h w a) as [[h1 w1] log1] eqn:E1.
    destruct (run h1 w1 acts) as [[h2 w2] log2] eqn:E2.
    inversion Hrun; subst; clear Hrun.
    destruct (settled_step _ _ _ _ _ _ _ _ Hpm Hts Hw E1) as (Hpm1 & Hts1 & Hd1).
    destruct (IH _ _ _ _ _ _ _ Hpm1 Hts1 Hrest E2) as (Hpm2 & Hts2 & Hd2).
    rewrite dispatches_app, Hd1, Hd2. auto.
Qed.

End Claims.

Module Dispatcher.

Import PyDict PyDictFacts Handler Run Observe HandlerFacts Claims.

(** A poll cycle, cut at the turn of [path]. *)
Lemma cycle_at_turn h w now clock pre path post h1 w1 log1 hp wp logp h2 w2 log2 :
  files_to_process h now = pre ++ path :: post ->
  process_files clock h w pre = (h1, w1, log1) ->
  process_file clock h1 w1 path = (hp, wp, logp) ->
  process_files clock hp wp post = (h2, w2, log2) ->
  check_and_process_files h w now clock
  = (h2, w2, checking_log h ++ log1 ++ logp ++ log2).
Proof.
  intros Hf Hpre Hp Hpost. unfold check_and_process_files.
  rewrite Hf, process_files_app, Hpre. simpl. now rewrite Hp, Hpost.
Qed.

Lemma turn_is_unique h now pre path post :
  wf (file_timestamps h) ->
  files_to_process h now = pre ++ path :: post ->
  ~ In path pre /\ ~ In path post.
Proof.
  intros Hwf Hf. apply (NoDup_files_to_process h now) in Hwf.
  rewrite Hf in Hwf. apply NoDup_remove in Hwf as [_ Hn].
  split; intros Hin; apply Hn; apply in_or_app; auto.
Qed.

(** C5. Missing-file safety: when the dispatcher reaches a ready path
    whose file has been deleted (its [stat] raises [FileNotFoundError]),
    the cycle ends normally, the path has left [file_timestamps], its
    entry in [processed_mtimes] is what it was before the cycle (none,
    if there was none), and the ready files after it are processed as
    they would be without it. *)
Theorem C5_missing_file_dropped h w now clock pre path post h1 w1 log1 :
  wf (file_timestamps h) ->
  files_to_process h now = pre ++ path :: post ->
  process_files clock h w pre = (h1, w1, log1) ->
  Fs.getmtime w1 path = Raise FileNotFoundError ->
  exists h2 w2 log2,
    process_files clock
      (with_timestamps h1 (pop (file_timestamps h1) path)) w1 post
    = (h2, w2, log2)
    /\ check_and_process_files h w now clock
       = (h2, w2,
          checking_log h ++ log1
          ++ [LogInfo (Processing path); LogWarning (Disappeared path)] ++ log2)
    /\ get (file_timestamps h2) path = None
    /\ processed_mtimes h2 !! path = processed_mtimes h !! path.
Proof.
  intros Hwf Hf Hpre Hstat.
  destruct (turn_is_unique _ _ _ _ _ Hwf Hf) as [Hnpre Hnpost].
  destruct (process_files clock
              (with_timestamps h1 (pop (file_timestamps h1) path)) w1 post)
    as [[h2 w2] log2] eqn:Hpost.
  exists h2, w2, log2. split; [reflexivity|].
  assert (Hp : process_file clock h1 w1 path
               = (with_timestamps h1 (pop (file_timestamps h1) path), w1,
                  [LogInfo (Processing path); LogWarning (Disappeared path)])).
  { unfold process_file. now rewrite Hstat. }
  split; [exact (cycle_at_turn _ _ _ _ _ _ _ _ _ _ _ _ _ _ _ _ Hf Hpre Hp Hpost)|].
  apply process_files_ok in Hpre, Hpost. destruct Hpre, Hpost.
  rewrite pls_other_ts1, pls_other_pm1 by assumption. simpl.
  split; [apply get_pop_eq | now apply pls_other_pm0].
Qed.

(** C5, on [Examples.h_two]: [dat] has been deleted, [dat2] is
    converted all the same. *)
Lemma C5_missing_file_dropped_witness :
  exists h2 w2 log2,
    process_files Examples.clock_2025
      (with_timestamps Examples.h_two
         (pop (file_timestamps Examples.h_two) Examples.dat))
      Examples.w_second_only [Examples.dat2]
    = (h2, w2, log2)
    /\ check_and_process_files Examples.h_two Examples.w_second_only
         (seconds 40) Examples.clock_2025
       = (h2, w2,
          checking_log Examples.h_two ++ []
          ++ [LogInfo (Processing Examples.dat);
              LogWarning (Disappeared Examples.dat)] ++ log2)
    /\ get (file_timestamps h2) Examples.dat = None
    /\ processed_mtimes h2 !! Examples.dat
       = processed_mtimes Examples.h_two !! Examples.dat.
Proof.
  apply (C5_missing_file_dropped Examples.h_two Examples.w_second_only
           (seconds 40) Examples.clock_2025 [] Examples.dat [Examples.dat2]
           Examples.h_two Examples.w_second_only []).
  - repeat constructor; simpl; intuition discriminate.
  - reflexivity.
  - reflexivity.
  - reflexivity.
Defined.

(** C1 does not hold as stated.  [dat] cannot be opened for reading: the
    conversion fails with [PermissionError], and the poll cycle still
    sets the marker of [dat], which had none, to the captured
    modification time 5. *)
Lemma C1_marker_set_after_failure :
  (exists w' log,
      Convert.convert_body Examples.dat "out" Examples.t_2025 Examples.w_unreadable
      = (w', log, Raise PermissionError))
  /\ processed_mtimes Examples.h_one !! Examples.dat = None
  /\ exists h' w' log,
      check_and_process_files Examples.h_one Examples.w_unreadable
        (seconds 31) Examples.clock_2025 = (h', w', log)
      /\ processed_mtimes h' !! Examples.dat = Some 5.
Proof.
  split; [do 2 eexists; vm_compute; reflexivity|].
  split; [reflexivity|].
  do 3 eexists. split; [vm_compute; reflexivity|]. reflexivity.
Qed.

(** C1, as it holds.  When the dispatcher reaches a ready path whose file
    can be stat-ed, with modification time [T], and the body of the
    conversion raises [e], the exception is caught and logged inside
    [convert_lr_to_epic] and does not reach the dispatcher: the turn of
    the path logs the failed conversion and no dispatcher error.  The
    handler after the turn has the path out of [file_timestamps] and
    [T] as its marker; it is the handler that the turn leaves for any
    file system in which the file has that modification time, whether
    the conversion fails there or not, so the failure shows in the log
    only.  The ready files after the path are processed, and when the
    cycle ends the path is untracked and its marker is [T]. *)
Theorem C1_failed_conversion_untracked
    h w now clock pre path post h1 w1 log1 T w1' clog e :
  wf (file_timestamps h) ->
  files_to_process h now = pre ++ path :: post ->
  process_files clock h w pre = (h1, w1, log1) ->
  Fs.getmtime w1 path = Ok T ->
  Convert.convert_body path (output_dir h) (clock path) w1 = (w1', clog, Raise e) ->
  exists h2 w2 log2,
    process_file clock h1 w1 path
    = (mkHandler (output_dir h1) (inactivity_period h1)
         (pop (file_timestamps h1) path) (<[path := T]> (processed_mtimes h1)),
       w1',
       LogInfo (Processing path) :: clog ++ [LogError (FailedToConvert path e)])
    /\ (forall ws, Fs.getmtime ws path = Ok T ->
          (process_file clock h1 ws path).1.1
          = mkHandler (output_dir h1) (inactivity_period h1)
              (pop (file_timestamps h1) path) (<[path := T]> (processed_mtimes h1)))
    /\ process_files clock
         (mkHandler (output_dir h1) (inactivity_period h1)
            (pop (file_timestamps h1) path) (<[path := T]> (processed_mtimes h1)))
         w1' post
       = (h2, w2, log2)
    /\ check_and_process_files h w now clock
       = (h2, w2,
          checking_log h ++ log1
          ++ (LogInfo (Processing path)
                :: clog ++ [LogError (FailedToConvert path e)])
          ++ log2)
    /\ get (file_timestamps h2) path = None
    /\ processed_mtimes h2 !! path = Some T.
Proof.
  intros Hwf Hf Hpre Hstat Hbody.
  destruct (turn_is_unique _ _ _ _ _ Hwf Hf) as [_ Hnpost].
  assert (Hdir : output_dir h1 = output_dir h)
    by (apply process_files_ok in Hpre; now destruct Hpre).
  set (hp := mkHandler (output_dir h1) (inactivity_period h1)
               (pop (file_timestamps h1) path) (<[path := T]> (processed_mtimes h1))).
  assert (Hany : forall ws, Fs.getmtime ws path = Ok T ->
                   (process_file clock h1 ws path).1.1 = hp).
  { intros ws Hws. unfold process_file. rewrite Hws.
    now destruct (Convert.convert_lr_to_epic _ _ _ _). }
  assert (Hp : process_file clock h1 w1 path
               = (hp, w1',
                  LogInfo (Processing path)
                    :: clog ++ [LogError (FailedToConvert path e)])).
  { unfold process_file. rewrite Hstat. unfold Convert.convert_lr_to_epic.
    rewrite Hdir, Hbody. reflexivity. }
  destruct (process_files clock hp w1' post) as [[h2 w2] log2] eqn:Hpost.
  exists h2, w2, log2. split; [exact Hp|]. split; [exact Hany|].
  split; [reflexivity|].
  split; [exact (cycle_at_turn _ _ _ _ _ _ _ _ _ _ _ _ _ _ _ _ Hf Hpre Hp Hpost)|].
  apply process_files_ok in Hpost. destruct Hpost.
  rewrite pls_other_ts0, pls_other_pm0 by assumption. subst hp. simpl.
  split; [apply get_pop_eq | apply lookup_insert_eq].
Qed.

(** C1, as it holds, on [Examples.h_one] and the unreadable [dat]. *)
Lemma C1_failed_conversion_untracked_witness :
  exists h2 w2 log2,
    process_file Examples.clock_2025 Examples.h_one Examples.w_unreadable Examples.dat
    = (mkHandler (output_dir Examples.h_one) (inactivity_period Examples.h_one)
         (pop (file_timestamps Examples.h_one) Examples.dat)
         (<[Examples.dat := 5]> (processed_mtimes Examples.h_one)),
       Examples.w_unreadable,
       LogInfo (Processing Examples.dat)
         :: [] ++ [LogError (FailedToConvert Examples.dat PermissionError)])
    /\ (forall ws, Fs.getmtime ws Examples.dat = Ok 5 ->
          (process_file Examples.clock_2025 Examples.h_one ws Examples.dat).1.1
          = mkHandler (output_dir Examples.h_one) (inactivity_period Examples.h_one)
              (pop (file_timestamps Examples.h_one) Examples.dat)
              (<[Examples.dat := 5]> (processed_mtimes Examples.h_one)))
    /\ process_files Examples.clock_2025
         (mkHandler (output_dir Examples.h_one) (inactivity_period Examples.h_one)
            (pop (file_timestamps Examples.h_one) Examples.dat)
            (<[Examples.dat := 5]> (processed_mtimes Examples.h_one)))
         Examples.w_unreadable []
       = (h2, w2, log2)
    /\ check_and_process_files Examples.h_one Examples.w_unreadable
         (seconds 31) Examples.clock_2025
       = (h2, w2,
          checking_log Examples.h_one ++ []
          ++ (LogInfo (Processing Examples.dat)
                :: [] ++ [LogError (FailedToConvert Examples.dat PermissionError)])
          ++ log2)
    /\ get (file_timestamps h2) Examples.dat = None
    /\ processed_mtimes h2 !! Examples.dat = Some 5.
Proof.
  apply (C1_failed_conversion_untracked Examples.h_one Examples.w_unreadable
           (seconds 31) Examples.clock_2025 [] Examples.dat []
           Examples.h_one Examples.w_unreadable [] 5).
  - repeat constructor; simpl; intuition discriminate.
  - reflexivity.
  - reflexivity.
  - reflexivity.
  - reflexivity.
Defined.

End Dispatcher.

Module EventFilter.

Import PyDict PyDictFacts Handler Run Observe HandlerFacts Claims.

Lemma process_file_marker clock h w path T hp wp logp :
  Fs.getmtime w path = Ok T ->
  process_file clock h w path = (hp, wp, logp) ->
  processed_mtimes hp !! path = Some T /\ get (file_timestamps hp) path = None.
Proof.
  unfold process_file. intros -> H.
  destruct (Convert.convert_lr_to_epic _ _ _ _) as [w1 clog].
  inversion H; subst; clear H. simpl.
  split; [apply lookup_insert_eq | apply get_pop_eq].
Qed.

(** C3 does not hold as stated.  The [stat] of [dat] is refused: the file
    cannot be stat-ed, and [_should_track] does not return [False], it
    raises [PermissionError]. *)
Lemma C3_refused_stat_raises :
  Fs.getmtime Examples.w_denied Examples.dat = Raise PermissionError
  /\ _should_track Examples.h_none Examples.w_denied Examples.dat <> Ok false
  /\ _should_track Examples.h_none Examples.w_denied Examples.dat
     = Raise PermissionError.
Proof. split; [reflexivity|]. split; [discriminate | reflexivity]. Qed.

(** C3, as it holds.  [_should_track] only reads the handler and the file
    system (it returns nothing but its answer).  It returns [False]
    when the [stat] of the path raises [FileNotFoundError], lets any
    other exception of the [stat] through, and otherwise returns
    [True] exactly when the modification time is strictly greater than
    the marker of the path, or than zero when it has none.  Hence,
    after a dispatch that stored the marker [T] for a path, an event
    for the same file with modification time still [T] is answered
    [False] and both callbacks leave the handler as it is. *)
Theorem C3_should_track h w path clock T hp wp logp w2 now :
  Fs.getmtime w path = Ok T ->
  process_file clock h w path = (hp, wp, logp) ->
  Fs.getmtime w2 path = Ok T ->
  (forall h0 w0 p0,
      match Fs.getmtime w0 p0 with
      | Raise FileNotFoundError => _should_track h0 w0 p0 = Ok false
      | Raise e => _should_track h0 w0 p0 = Raise e
      | Ok mtime =>
          _should_track h0 w0 p0
          = Ok (bool_decide (default 0 (processed_mtimes h0 !! p0) < mtime))
      end)
  /\ processed_mtimes hp !! path = Some T
  /\ _should_track hp w2 path = Ok false
  /\ on_modified hp w2 now (mkEvent false path) = Ok (hp, [])
  /\ on_created hp w2 now (mkEvent false path) = Ok (hp, []).
Proof.
  intros Hstat Hp Hstat2.
  split.
  { intros h0 w0 p0. unfold _should_track.
    destruct (Fs.getmtime w0 p0) as [m|[]]; try reflexivity.
    f_equal. destruct (Z.ltb_spec (default 0 (processed_mtimes h0 !! p0)) m).
    - now rewrite bool_decide_eq_true_2.
    - rewrite bool_decide_eq_false_2; [reflexivity | lia]. }
  destruct (process_file_marker _ _ _ _ _ _ _ _ Hstat Hp) as [Hpm _].
  assert (Hno : _should_track hp w2 path = Ok false).
  { rewrite (should_track_marker _ _ _ _ _ Hpm Hstat2). now rewrite Z.ltb_irrefl. }
  split; [assumption|]. split; [assumption|].
  split.
  - exact (callback_untracked hp w2 now (mkEvent false path) false Hno).
  - exact (callback_untracked hp w2 now (mkEvent false path) true Hno).
Qed.

(** C3, as it holds, on [Examples.h_one]: [dat] is dispatched with
    modification time 5, and an event for the unchanged file follows. *)
Lemma C3_should_track_witness :
  (forall h0 w0 p0,
      match Fs.getmtime w0 p0 with
      | Raise FileNotFoundError => _should_track h0 w0 p0 = Ok false
      | Raise e => _should_track h0 w0 p0 = Raise e
      | Ok mtime =>
          _should_track h0 w0 p0
          = Ok (bool_decide (default 0 (processed_mtimes h0 !! p0) < mtime))
      end)
  /\ processed_mtimes
       (process_file Examples.clock_2025 Examples.h_one
          (Examples.w_one "") Examples.dat).1.1 !! Examples.dat = Some 5
  /\ _should_track
       (process_file Examples.clock_2025 Examples.h_one
          (Examples.w_one "") Examples.dat).1.1
       (Examples.w_one "") Examples.dat = Ok false
  /\ on_modified
       (process_file Examples.clock_2025 Examples.h_one
          (Examples.w_one "") Examples.dat).1.1
       (Examples.w_one "") (seconds 50) (mkEvent false Examples.dat)
     = Ok ((process_file Examples.clock_2025 Examples.h_one
              (Examples.w_one "") Examples.dat).1.1, [])
  /\ on_created
       (process_file Examples.clock_2025 Examples.h_one
          (Examples.w_one "") Examples.dat).1.1
       (Examples.w_one "") (seconds 50) (mkEvent false Examples.dat)
     = Ok ((process_file Examples.clock_2025 Examples.h_one
              (Examples.w_one "") Examples.dat).1.1, []).
Proof.
  apply (C3_should_track Examples.h_one (Examples.w_one "") Examples.dat
           Examples.clock_2025 5 _
           (process_file Examples.clock_2025 Examples.h_one
              (Examples.w_one "") Examples.dat).1.2
           (process_file Examples.clock_2025 Examples.h_one
              (Examples.w_one "") Examples.dat).2
           (Examples.w_one "") (seconds 50)).
  - reflexivity.
  - vm_compute. reflexivity.
  - reflexivity.
Defined.

End EventFilter.

Module Debounce.

Import PyDict PyDictFacts Handler Run Observe HandlerFacts Claims.




End Debounce.

Module AtMostOnce.

Import PyDict PyDictFacts Handler Run Observe HandlerFacts Claims.

(** C2. At most one processing per modification.  A dispatch of a path
    whose file has modification time [T] stores [T] as its marker and
    stops tracking it.  Through any later actions during which the file
    is no newer than [T], the path is never dispatched again (so that
    revision is not converted and appended a second time), it stays
    untracked and its marker stays [T].  After them an event for the
    path, a [.dat] file with modification time [mtime], is tracked
    again exactly when [mtime] is strictly greater than [T]. *)
Theorem C2_at_most_once
    h w clock path T hp wp logp acts w0 h' w' log w2 mtime now (created : bool) :
  Fs.getmtime w path = Ok T ->
  process_file clock h w path = (hp, wp, logp) ->
  stays_old path T hp w0 acts ->
  run hp w0 acts = (h', w', log) ->
  PyStr.endswith path ".dat" = true ->
  Fs.getmtime w2 path = Ok mtime ->
  (processed_mtimes hp !! path = Some T /\ get (file_timestamps hp) path = None)
  /\ dispatches path log = 0%nat
  /\ (processed_mtimes h' !! path = Some T /\ get (file_timestamps h') path = None)
  /\ exists r,
       (if created then on_created h' w2 now (mkEvent false path)
        else on_modified h' w2 now (mkEvent false path)) = Ok r
       /\ get (file_timestamps r.1) path
          = if T <? mtime then Some now else None.
Proof.
  intros Hstat Hp Hold Hrun Hdat Hstat2.
  destruct (EventFilter.process_file_marker _ _ _ _ _ _ _ _ Hstat Hp) as [Hpm Hts].
  destruct (settled_run _ _ _ _ _ _ _ _ Hpm Hts Hold Hrun) as (Hpm' & Hts' & Hd).
  split; [auto|]. split; [assumption|]. split; [auto|].
  assert (Ht := should_track_marker _ _ _ _ _ Hpm' Hstat2).
  destruct created; unfold on_created, on_modified; simpl;
    rewrite Hdat, Ht; simpl; destruct (T <? mtime);
    eexists; (split; [reflexivity|]); simpl;
    solve [apply get_set_eq | assumption].
Qed.

(** C2, on [Examples.h_one]: [dat] is dispatched at modification time
    5; the events are delivered again and two polls follow; then the
    file is written again, at 9, and a modification event comes at
    second 200. *)
Lemma C2_at_most_once_witness :
  (processed_mtimes Examples.first_pass.1.1 !! Examples.dat = Some 5
   /\ get (file_timestamps Examples.first_pass.1.1) Examples.dat = None)
  /\ dispatches Examples.dat Examples.replay.2 = 0%nat
  /\ (processed_mtimes Examples.replay.1.1 !! Examples.dat = Some 5
      /\ get (file_timestamps Examples.replay.1.1) Examples.dat = None)
  /\ exists r,
       on_modified Examples.replay.1.1 Examples.w_newer (seconds 200)
         (mkEvent false Examples.dat) = Ok r
       /\ get (file_timestamps r.1) Examples.dat = Some (seconds 200).
Proof.
  apply (C2_at_most_once Examples.h_one (Examples.w_one Examples.high)
           Examples.clock_2025 Examples.dat 5
           Examples.first_pass.1.1 Examples.first_pass.1.2 Examples.first_pass.2
           Examples.replay_actions Examples.first_pass.1.2
           Examples.replay.1.1 Examples.replay.1.2 Examples.replay.2
           Examples.w_newer 9 (seconds 200) false).
  - reflexivity.
  - vm_compute. reflexivity.
  - vm_compute.
    repeat split; intros mtime H; inversion H; discriminate.
  - vm_compute. reflexivity.
  - reflexivity.
  - reflexivity.
Defined.

End AtMostOnce.

(** ** The conversion *)

Module ConvertFacts.

Import PyDatetime Convert Observe.

Lemma append_cons x (a b : string) : String x a +:+ b = String x (a +:+ b).
Proof. reflexivity. Qed.

Lemma append_nil_l (a : string) : "" +:+ a = a.
Proof. reflexivity. Qed.

Lemma append_assoc (a b c : string) : (a +:+ b) +:+ c = a +:+ (b +:+ c).
Proof.
  induction a as [|x a IH]; [reflexivity|].
  rewrite !append_cons. now rewrite IH.
Qed.

Lemma append_nil_r (a : string) : a +:+ "" = a.
Proof.
  induction a as [|x a IH]; [reflexivity|].
  rewrite append_cons. now rewrite IH.
Qed.

(** *** Writing *)

Lemma contents_write_eq t p s w d :
  contents w p = Some d -> contents (Fs.write t p s w) p = Some (d +:+ s).
Proof.
  unfold contents, Fs.write. destruct (w !! p) as [[f| |]|] eqn:E; try discriminate.
  intros H. inversion H; subst. now rewrite lookup_insert_eq.
Qed.

Lemma contents_write_ne t p s w q :
  p <> q -> contents (Fs.write t p s w) q = contents w q.
Proof.
  intros Hne. unfold contents, Fs.write.
  destruct (w !! p) as [[f| |]|] eqn:E; try reflexivity.
  now rewrite lookup_insert_ne.
Qed.

Lemma contents_writelines_eq t p ls :
  forall w d, contents w p = Some d ->
    contents (Fs.writelines t p ls w) p = Some (d +:+ joined ls).
Proof.
  unfold Fs.writelines.
  induction ls as [|l ls IH]; simpl; intros w d H.
  - now rewrite append_nil_r.
  - rewrite (IH _ (d +:+ l)); [now rewrite append_assoc|].
    now apply contents_write_eq.
Qed.

Lemma contents_writelines_ne t p ls q :
  p <> q -> forall w, contents (Fs.writelines t p ls w) q = contents w q.
Proof.
  intros Hne. unfold Fs.writelines.
  induction ls as [|l ls IH]; simpl; intros w; [reflexivity|].
  rewrite IH. now apply contents_write_ne.
Qed.

(** [os.makedirs] leaves every regular file as it is and makes none. *)
Lemma contents_makedirs t dirs :
  forall w w1 r q, Fs.makedirs t dirs w = (w1, r) -> contents w1 q = contents w q.
Proof.
  induction dirs as [|d dirs IH]; simpl; intros w w1 r q H.
  - now inversion H.
  - destruct (w !! d) as [[f| |]|] eqn:E.
    + now inversion H.
    + eauto.
    + now inversion H.
    + rewrite (IH _ _ _ q H). unfold contents.
      destruct (string_dec d q) as [->|Hne].
      * now rewrite lookup_insert_eq, E.
      * now rewrite lookup_insert_ne.
Qed.

Lemma isfile_contents w p :
  Fs.isfile w p = match contents w p with Some _ => true | None => false end.
Proof. unfold Fs.isfile, contents. now destruct (w !! p) as [[f| |]|]. Qed.

(** [open(p, 'a')] keeps the text of [p], or starts it empty. *)
Lemma contents_open_append t p w w2 :
  Fs.open_append t p w = Ok w2 ->
  contents w2 p = Some (default "" (contents w p))
  /\ forall q, p <> q -> contents w2 q = contents w q.
Proof.
  unfold Fs.open_append, contents.
  destruct (w !! p) as [[f| |]|] eqn:E; try discriminate.
  - destruct (Fs.appendable f); [|discriminate].
    intros H. inversion H; subst. now rewrite E.
  - intros H. inversion H; subst. rewrite lookup_insert_eq. split; [reflexivity|].
    intros q Hne. now rewrite lookup_insert_ne.
Qed.

(** *** The loop over the lines *)

Lemma convert_lines_in_range base_time file_path lines :
  Forall (in_range base_time) lines ->
  forall converted log,
    convert_lines base_time file_path lines converted log
    = (log ++ flat_map (warning_of base_time file_path) lines,
       Ok (converted ++ flat_map (converted_of base_time) lines)).
Proof.
  induction 1 as [|line rest Hline _ IH]; simpl; intros converted log.
  - now rewrite !app_nil_r.
  - unfold warning_of at 1, converted_of at 1.
    destruct (convert_line base_time line) eqn:E;
      try (now destruct (Hline e));
      rewrite IH; simpl; rewrite <- ?app_assoc; reflexivity.
Qed.

(** The first line that raises ends the loop, and nothing is returned. *)
Lemma convert_lines_aborted base_time file_path pre line post e :
  Forall (in_range base_time) pre ->
  convert_line base_time line = Aborted e ->
  forall converted log,
    convert_lines base_time file_path (pre ++ line :: post) converted log
    = (log ++ flat_map (warning_of base_time file_path) pre, Raise e).
Proof.
  intros Hpre Hline.
  induction Hpre as [|l rest Hl _ IH]; simpl; intros converted log.
  - now rewrite Hline, app_nil_r.
  - unfold warning_of at 1.
    destruct (convert_line base_time l) eqn:E;
      try (now destruct (Hl e0));
      rewrite IH; simpl; rewrite <- ?app_assoc; reflexivity.
Qed.

Lemma convert_body_converted file_path base clock w w' log lines out :
  convert_body file_path base clock w = (w', log, Ok (lines, out)) ->
  converted file_path base clock w w' log lines out.
Proof.
  unfold convert_body. intros H.
  destruct (Fs.getctime w file_path) as [c|] eqn:Ec; [|discriminate]. simpl in H.
  destruct (fromtimestamp c) as [base_time|] eqn:Eb; [|discriminate].
  destruct (Fs.read_lines w file_path) as [ls|] eqn:Er; [|discriminate].
  destruct (convert_lines base_time file_path ls [] []) as [warnings [cl|]] eqn:El;
    [|discriminate].
  destruct (fromtimestamp clock) as [now|] eqn:En; [|discriminate].
  destruct (Fs.makedirs clock (output_dirs base now) w) as [w1 [[]|]] eqn:Em;
    [|discriminate].
  destruct (Fs.open_append clock (output_file base now) w1) as [w2|] eqn:Eo;
    [|discriminate].
  inversion H; subst; clear H.
  pose proof (contents_makedirs _ _ _ _ _ (output_file base now) Em) as Hm.
  destruct (contents_open_append _ _ _ _ Eo) as [Ho Ho'].
  split.
  - exists c, base_time, ls, warnings. auto.
  - exists now. auto.
  - unfold prior. rewrite isfile_contents, Hm. rewrite Hm in Ho.
    destruct (contents w (output_file base now)) as [d|] eqn:Ed; simpl in *.
    + now apply contents_writelines_eq.
    + apply contents_writelines_eq.
      apply contents_write_eq.
      exact (contents_write_eq _ _ header1 _ "" Ho).
  - intros q Hne.
    rewrite contents_writelines_ne by assumption.
    rewrite <- (contents_makedirs _ _ _ _ _ q Em), <- (Ho' q Hne).
    destruct (Fs.isfile w1 (output_file base now)); [reflexivity|].
    now rewrite !contents_write_ne.
Qed.

(** Whatever the conversion does, the text that a regular file had
    is still there, at its start. *)
Lemma convert_append_only file_path base clock w q d :
  contents w q = Some d ->
  exists rest, contents (convert_lr_to_epic file_path base clock w).1 q
               = Some (d +:+ rest).
Proof.
  intros Hq. unfold convert_lr_to_epic.
  destruct (convert_body file_path base clock w) as [[w' log] [[lines out]|e]] eqn:E.
  - apply convert_body_converted in E. destruct E. simpl.
    destruct (string_dec out q) as [->|Hne].
    + rewrite cv_text0. unfold prior. rewrite Hq. simpl. eauto.
    + rewrite cv_others0 by assumption. exists "". now rewrite append_nil_r.
  - simpl. exists "". rewrite append_nil_r.
    unfold convert_body in E.
    destruct (rbind _ _); [|inversion E; subst; assumption].
    destruct (Fs.read_lines _ _); [|inversion E; subst; assumption].
    destruct (convert_lines _ _ _ _ _) as [lg [cl|]];
      [|inversion E; subst; assumption].
    destruct (fromtimestamp clock); [|inversion E; subst; assumption].
    destruct (Fs.makedirs _ _ _) as [w1 [[]|]] eqn:Em.
    + destruct (Fs.open_append _ _ _); inversion E; subst.
      now rewrite (contents_makedirs _ _ _ _ _ q Em).
    + inversion E; subst. now rewrite (contents_makedirs _ _ _ _ _ q Em).
Qed.

End ConvertFacts.

Module Conversion.

Import PyDatetime Convert Observe ConvertFacts.

Lemma fromtimestamp_2024 : fromtimestamp Examples.t_2024 = Ok Examples.base_2024.
Proof. vm_compute. reflexivity. Qed.

Lemma convert_lines_high file_path :
  convert_lines Examples.base_2024 file_path (PyStr.readlines Examples.high) [] []
  = ([], Ok [Examples.high_line]).
Proof. vm_compute. reflexivity. Qed.

(** C6. End-to-end conversion.  A readable source file created at
    2024-01-01T10:00:00 that holds the one line "2.5<TAB>HIGH" is
    converted, when the output directories can be made and the output
    file opened, into exactly the line
    "01/01/2024 10:00:02.500000,HIGH", appended to
    <outputBase>/<YYYY>/<YYYY_MM_DD>/LR.txt; the year and the date of
    that path are those of the clock at the conversion, whatever the
    time of the source file. *)
Theorem C6_end_to_end w file_path base clock f now w1 w2 :
  w !! file_path = Some (Fs.RegFile f) ->
  Fs.st_ctime f = Examples.t_2024 ->
  Fs.readable f = true ->
  Fs.data f = Examples.high ->
  fromtimestamp clock = Ok now ->
  Fs.makedirs clock (output_dirs base now) w = (w1, Ok tt) ->
  Fs.open_append clock (output_file base now) w1 = Ok w2 ->
  output_file base now
  = Fs.join (Fs.join (Fs.join base (strftime_year now)) (strftime_date now)) "LR.txt"
  /\ exists w',
      convert_lr_to_epic file_path base clock w
      = (w', [LogInfo (Appended 1 (output_file base now))])
      /\ contents w' (output_file base now)
         = Some (prior w (output_file base now) +:+ Examples.high_line).
Proof.
  intros Hnode Hctime Hread Hdata Hnow Hmk Hopen.
  split; [reflexivity|].
  assert (E : exists w',
             convert_body file_path base clock w
             = (w', [LogInfo (Appended 1 (output_file base now))],
                Ok ([Examples.high_line], output_file base now))).
  { unfold convert_body, Fs.getctime, Fs.read_lines.
    rewrite Hnode. cbn [rbind]. rewrite Hctime, fromtimestamp_2024.
    rewrite Hread, Hdata, convert_lines_high, Hnow, Hmk, Hopen.
    eexists. reflexivity. }
  destruct E as [w' E]. exists w'.
  unfold convert_lr_to_epic. rewrite E. split; [reflexivity|].
  apply convert_body_converted in E. destruct E.
  rewrite cv_text0. unfold joined. simpl. now rewrite append_nil_r.
Qed.

(** C6, on [Examples.w_one]: converted on 2025-03-07, the line goes to
    out/2025/2025_03_07/LR.txt, a new file. *)
Lemma C6_end_to_end_witness :
  output_file "out" (mkDatetime 2025 3 7 11 15 30 0) = Examples.out_2025
  /\ exists w',
      convert_lr_to_epic Examples.dat "out" Examples.t_2025
        (Examples.w_one Examples.high)
      = (w', [LogInfo (Appended 1 Examples.out_2025)])
      /\ contents w' Examples.out_2025
         = Some (header1 +:+ header2 +:+ Examples.high_line).
Proof.
  apply (C6_end_to_end (Examples.w_one Examples.high) Examples.dat "out"
           Examples.t_2025
           (Fs.mkFile 5 Examples.t_2024 true true Examples.high)
           (mkDatetime 2025 3 7 11 15 30 0)
           (Fs.makedirs Examples.t_2025
              (output_dirs "out" (mkDatetime 2025 3 7 11 15 30 0))
              (Examples.w_one Examples.high)).1
           (<[Examples.out_2025 :=
                Fs.RegFile (Fs.mkFile Examples.t_2025 Examples.t_2025 true true "")]>
              (Fs.makedirs Examples.t_2025
                 (output_dirs "out" (mkDatetime 2025 3 7 11 15 30 0))
                 (Examples.w_one Examples.high)).1)).
  - reflexivity.
  - reflexivity.
  - reflexivity.
  - reflexivity.
  - vm_compute. reflexivity.
  - vm_compute. reflexivity.
  - vm_compute. reflexivity.
Defined.

(** C8. Header-once.  A conversion that reaches its end appends its
    lines to the text the output file starts from: the two-part
    header "EPIC LR Log File<LF><LF>", "Date,LR<LF>" when there is no
    such file yet, and what the file holds when it exists, with no
    header.  So after two conversions to the same output path the
    file holds that start, the lines of the first and the lines of the
    second: the header stands once.  And no conversion, whether it
    fails or not, removes or changes text that a file already holds. *)
Theorem C8_header_once
    fileA fileB base clockA clockB w wA logA linesA out wB logB linesB :
  convert_body fileA base clockA w = (wA, logA, Ok (linesA, out)) ->
  convert_body fileB base clockB wA = (wB, logB, Ok (linesB, out)) ->
  prior w out
  = match contents w out with
    | Some text => text
    | None => header1 +:+ header2
    end
  /\ contents wA out = Some (prior w out +:+ joined linesA)
  /\ contents wB out = Some (prior w out +:+ joined linesA +:+ joined linesB)
  /\ forall file_path base' clock w0 q,
      match contents w0 q with
      | Some text =>
          exists rest,
            contents (convert_lr_to_epic file_path base' clock w0).1 q
            = Some (text +:+ rest)
      | None => True
      end.
Proof.
  intros HA HB.
  apply convert_body_converted in HA, HB. destruct HA, HB.
  split; [unfold prior; now destruct (contents w out)|].
  split; [assumption|].
  split.
  - rewrite cv_text1. unfold prior at 1. rewrite cv_text0. simpl.
    now rewrite append_assoc.
  - intros file_path base' clock w0 q.
    destruct (contents w0 q) as [text|] eqn:E; [|exact I].
    now apply convert_append_only.
Qed.

(** C8, on [Examples.w_both]: [dat] and then [dat2] are converted on
    2025-03-07, into an output file that was not there. *)
Lemma C8_header_once_witness :
  prior Examples.w_both Examples.out_2025 = header1 +:+ header2
  /\ contents Examples.first_conv.1.1 Examples.out_2025
     = Some ((header1 +:+ header2) +:+ Examples.high_line)
  /\ contents Examples.second_conv.1.1 Examples.out_2025
     = Some ((header1 +:+ header2) +:+ Examples.high_line +:+ Examples.seven_line)
  /\ forall file_path base' clock w0 q,
      match contents w0 q with
      | Some text =>
          exists rest,
            contents (convert_lr_to_epic file_path base' clock w0).1 q
            = Some (text +:+ rest)
      | None => True
      end.
Proof.
  apply (C8_header_once Examples.dat Examples.dat2 "out"
           Examples.t_2025 (Examples.t_2025 + Handler.seconds 60)
           Examples.w_both
           Examples.first_conv.1.1 Examples.first_conv.1.2 [Examples.high_line]
           Examples.out_2025
           Examples.second_conv.1.1 Examples.second_conv.1.2 [Examples.seven_line]).
  - vm_compute. reflexivity.
  - vm_compute. reflexivity.
Defined.

End Conversion.

Module Lines.

Import PyDatetime Convert Observe ConvertFacts.

Lemma convert_line_skipped base_time line :
  length (PyStr.split PyStr.tab (PyStr.strip line)) <> 2%nat ->
  convert_line base_time line = Skipped.
Proof.
  unfold convert_line.
  destruct (PyStr.split PyStr.tab (PyStr.strip line)) as [|a [|b [|c l]]];
    simpl; congruence.
Qed.

Lemma convert_line_invalid base_time line offset intensity :
  PyStr.split PyStr.tab (PyStr.strip line) = [offset; intensity] ->
  PyFloat.float_of_string offset = Raise ValueError ->
  convert_line base_time line = Invalid.
Proof.
  unfold convert_line, convert_fields. intros -> ->. reflexivity.
Qed.

Lemma convert_line_converted base_time line offset intensity x delta t :
  PyStr.split PyStr.tab (PyStr.strip line) = [offset; intensity] ->
  PyFloat.float_of_string offset = Ok x ->
  timedelta_of_seconds x = Ok delta ->
  add base_time delta = Ok t ->
  convert_line base_time line
  = Converted (strftime_line t +:+ "," +:+ intensity +:+ newline).
Proof.
  unfold convert_line, convert_fields. intros -> -> Hd Ht.
  cbn [rbind]. rewrite Hd. cbn [rbind]. now rewrite Ht.
Qed.

Lemma in_range_skipped base_time line :
  convert_line base_time line = Skipped -> in_range base_time line.
Proof. unfold in_range. congruence. Qed.

Lemma in_range_converted base_time line l :
  convert_line base_time line = Converted l -> in_range base_time line.
Proof. unfold in_range. congruence. Qed.

(** *** Commas *)

Lemma length_split c s : length (PyStr.split c s) = S (count c s).
Proof.
  induction s as [|x s IH]; [reflexivity|].
  cbn [PyStr.split count]. destruct (Ascii.eqb x c); simpl.
  - now rewrite IH.
  - destruct (PyStr.split c s); simpl in *; [discriminate | assumption].
Qed.

Lemma count_app c a b : count c (a +:+ b) = (count c a + count c b)%nat.
Proof.
  induction a as [|x a IH]; [reflexivity|].
  rewrite append_cons. cbn [count]. rewrite IH. lia.
Qed.

Lemma digit_not_comma n : Ascii.eqb (digit n) "," = false.
Proof.
  unfold digit.
  assert (H : 0 <= n mod 10 < 10) by (apply Z.mod_pos_bound; lia).
  assert (Hc : n mod 10 = 0 \/ n mod 10 = 1 \/ n mod 10 = 2 \/ n mod 10 = 3
               \/ n mod 10 = 4 \/ n mod 10 = 5 \/ n mod 10 = 6 \/ n mod 10 = 7
               \/ n mod 10 = 8 \/ n mod 10 = 9) by lia.
  repeat (destruct Hc as [Hc|Hc]; [rewrite Hc; reflexivity|]).
  rewrite Hc; reflexivity.
Qed.

Lemma count_zfill width :
  forall n acc, count "," (zfill width n acc) = count "," acc.
Proof.
  induction width as [|width IH]; intros n acc; [reflexivity|].
  cbn [zfill]. rewrite IH. cbn [count]. now rewrite digit_not_comma.
Qed.

Lemma count_strftime_Y y acc : count "," (strftime_Y y acc) = count "," acc.
Proof. unfold strftime_Y. repeat destruct (_ <? _); apply count_zfill. Qed.

Lemma count_strftime_line t : count "," (strftime_line t) = 0%nat.
Proof.
  unfold strftime_line.
  repeat (first [rewrite count_zfill | rewrite count_strftime_Y];
          rewrite ?append_cons, ?append_nil_l; cbn [count Ascii.eqb Bool.eqb]).
  reflexivity.
Qed.

End Lines.

Module LineClaims.

Import PyDatetime Convert Observe ConvertFacts Lines.

Lemma readlines_skip_text :
  PyStr.readlines Examples.skip_text
  = ["0.0" +:+ Examples.tb +:+ "5" +:+ Examples.nl;
     Examples.bad_line;
     "1.5" +:+ Examples.tb +:+ "7" +:+ Examples.nl].
Proof. vm_compute. reflexivity. Qed.

(** C7 does not hold as stated.  The line " bad_line" of the input of the
    specification does not split into two fields; it is skipped, and
    the conversion logs no warning for it: its only log record is the
    count of the two lines it appended. *)
Lemma C7_bad_line_skipped_silently :
  length (PyStr.split PyStr.tab (PyStr.strip Examples.bad_line)) <> 2%nat
  /\ (convert_lr_to_epic Examples.dat "out" Examples.t_2025
        (Examples.w_one Examples.skip_text)).2
     = [LogInfo (Appended 2 Examples.out_2025)].
Proof. split; [vm_compute; discriminate | vm_compute; reflexivity]. Qed.

(** C10 does not hold as stated.  The line "1e300<TAB>X" splits into two
    fields and its first field is a number, a finite float; no output
    line is appended for it: adding it to the origin raises
    [OverflowError], the whole conversion is given up and the file
    system is left as it was. *)
Lemma C10_huge_offset_not_converted :
  PyStr.split PyStr.tab (PyStr.strip Examples.huge_line) = ["1e300"; "X"]
  /\ (exists m e, PyFloat.float_of_string "1e300" = Ok (S754_finite false m e))
  /\ convert_line Examples.base_2024 Examples.huge_line = Aborted OverflowError
  /\ convert_lr_to_epic Examples.dat "out" Examples.t_2025
       (Examples.w_one Examples.huge_line)
     = (Examples.w_one Examples.huge_line,
        [LogError (FailedToConvert Examples.dat OverflowError)]).
Proof.
  split; [vm_compute; reflexivity|].
  split; [do 2 eexists; vm_compute; reflexivity|].
  split; vm_compute; reflexivity.
Qed.

(** C10, as it holds.  For an input line that strips and splits into
    exactly two tab-separated fields, whose first field [float()]
    accepts and whose offset, as a [timedelta] added to the origin,
    stays within what [timedelta] and [datetime] hold, the output line
    is exactly the formatted time, a comma, the second field as it is
    and a line feed, and it is appended in its place among the output
    of the other lines.  Commas of the second field are written as
    they are: the output line has as many comma-separated columns as
    two plus the commas of the second field. *)
Theorem C10_output_line
    base_time file_path pre line post offset intensity x delta t :
  PyStr.split PyStr.tab (PyStr.strip line) = [offset; intensity] ->
  PyFloat.float_of_string offset = Ok x ->
  timedelta_of_seconds x = Ok delta ->
  add base_time delta = Ok t ->
  Forall (in_range base_time) pre ->
  Forall (in_range base_time) post ->
  convert_line base_time line
  = Converted (strftime_line t +:+ "," +:+ intensity +:+ newline)
  /\ convert_lines base_time file_path (pre ++ line :: post) [] []
     = (flat_map (warning_of base_time file_path) (pre ++ post),
        Ok (flat_map (converted_of base_time) pre
            ++ (strftime_line t +:+ "," +:+ intensity +:+ newline)
            :: flat_map (converted_of base_time) post))
  /\ length (PyStr.split "," (strftime_line t +:+ "," +:+ intensity +:+ newline))
     = (2 + count "," intensity)%nat.
Proof.
  intros Hsplit Hfloat Hdelta Hadd Hpre Hpost.
  pose proof (convert_line_converted _ _ _ _ _ _ _ Hsplit Hfloat Hdelta Hadd) as Hline.
  split; [assumption|]. split.
  - rewrite convert_lines_in_range.
    + rewrite !flat_map_app. cbn [flat_map].
      unfold warning_of at 2, converted_of at 2. rewrite Hline. reflexivity.
    + apply Forall_app. split; [assumption|].
      constructor; [|assumption]. eauto using in_range_converted.
  - rewrite length_split, !count_app, count_strftime_line.
    cbn [count Ascii.eqb Bool.eqb newline].
    change (Ascii.eqb PyStr.lf ",") with false. cbv iota. lia.
Qed.

(** C10, as it holds, on "1<TAB>a,b,c": four columns. *)
Lemma C10_output_line_witness :
  convert_line Examples.base_2024 Examples.comma_line
  = Converted (strftime_line (mkDatetime 2024 1 1 10 0 1 0)
                 +:+ "," +:+ "a,b,c" +:+ newline)
  /\ convert_lines Examples.base_2024 Examples.dat
       ([Examples.bad_line] ++ Examples.comma_line :: [Examples.high]) [] []
     = (flat_map (warning_of Examples.base_2024 Examples.dat)
          ([Examples.bad_line] ++ [Examples.high]),
        Ok (flat_map (converted_of Examples.base_2024) [Examples.bad_line]
            ++ (strftime_line (mkDatetime 2024 1 1 10 0 1 0)
                  +:+ "," +:+ "a,b,c" +:+ newline)
            :: flat_map (converted_of Examples.base_2024) [Examples.high]))
  /\ length (PyStr.split ","
               (strftime_line (mkDatetime 2024 1 1 10 0 1 0)
                  +:+ "," +:+ "a,b,c" +:+ newline))
     = (2 + count "," "a,b,c")%nat.
Proof.
  apply (C10_output_line Examples.base_2024 Examples.dat
           [Examples.bad_line] Examples.comma_line [Examples.high]
           "1" "a,b,c" (S754_finite false 4503599627370496 (-52))
           (mkDelta 0 1 0) (mkDatetime 2024 1 1 10 0 1 0)).
  - vm_compute. reflexivity.
  - vm_compute. reflexivity.
  - vm_compute. reflexivity.
  - vm_compute. reflexivity.
  - repeat constructor; intros e; vm_compute; discriminate.
  - repeat constructor; intros e; vm_compute; discriminate.
Defined.

End LineClaims.

(** ** Further properties of the handler *)

Module RunFacts.

Import PyDict PyDictFacts Handler Run Observe HandlerFacts Claims Tally.

(** A callback returns the handler as it is, or with the path of its
    event stamped; it stamps only a [.dat] path that is no directory. *)
Lemma callback_stamps h w now ev (created : bool) h' log :
  (if created then on_created h w now ev else on_modified h w now ev) = Ok (h', log) ->
  (h' = h \/
   (ends_dat (src_path ev) /\ is_directory ev = false
    /\ h' = with_timestamps h (set (file_timestamps h) (src_path ev) now)))
  /\ (forall q, dispatches q log = 0%nat)
  /\ (forall q, stat_errors q log = 0%nat).
Proof.
  unfold ends_dat.
  destruct created; unfold on_created, on_modified;
    destruct (is_directory ev); try (intros H; inversion H; subst; now auto);
    destruct (PyStr.endswith (src_path ev) ".dat") eqn:E;
    try (intros H; inversion H; subst; now auto);
    destruct (_should_track h w (src_path ev)) as [[|]|e]; simpl;
    intros H; inversion H; subst; auto 8.
Qed.

Lemma stat_errors_app path l1 l2 :
  stat_errors path (l1 ++ l2) = (stat_errors path l1 + stat_errors path l2)%nat.
Proof. unfold stat_errors. now rewrite List.filter_app, length_app. Qed.

Lemma from_convert_stat_errors path log :
  Forall from_convert log -> stat_errors path log = 0%nat.
Proof.
  unfold stat_errors. induction 1 as [|r log Hr _ IH]; [reflexivity|].
  simpl. destruct r as [[]|[]|[]]; simpl in *; try contradiction; assumption.
Qed.

Lemma checking_log_stat_errors h path : stat_errors path (checking_log h) = 0%nat.
Proof.
  unfold checking_log, stat_errors.
  induction (file_timestamps h) as [|[k v] d IH]; simpl; auto.
Qed.

Lemma stat_errors_cons path r log :
  stat_errors path (r :: log)
  = ((if is_stat_error path r then 1 else 0) + stat_errors path log)%nat.
Proof. unfold stat_errors. simpl. now destruct (is_stat_error path r). Qed.

(** What one turn of the dispatcher does to the markers and to the
    account of its path. *)
Lemma process_file_account clock h w path h' w' log :
  process_file clock h w path = (h', w', log) ->
  (forall q, is_Some (processed_mtimes h !! q) -> is_Some (processed_mtimes h' !! q))
  /\ (forall q, is_Some (processed_mtimes h' !! q) ->
                is_Some (processed_mtimes h !! q) \/ q = path)
  /\ (forall q, q <> path -> stat_errors q log = 0%nat)
  /\ (get (file_timestamps h) path <> None ->
      (1 + tracked h' path = stat_errors path log + 1)%nat)
  /\ (forall q, q <> path -> tracked h' q = tracked h q).
Proof.
  unfold process_file, tracked. intros H.
  destruct (Fs.getmtime w path) as [t|e].
  - destruct (Convert.convert_lr_to_epic _ _ _ _) as [w1 clog] eqn:E.
    apply convert_log in E. inversion H; subst; clear H. simpl.
    repeat split.
    + intros q Hq. destruct (string_dec path q) as [->|Hne].
      * rewrite lookup_insert_eq. eauto.
      * now rewrite lookup_insert_ne.
    + intros q Hq. destruct (string_dec path q) as [->|Hne]; [auto|].
      rewrite lookup_insert_ne in Hq by assumption. auto.
    + intros q Hq. rewrite stat_errors_cons. simpl.
      now apply from_convert_stat_errors.
    + intros _. rewrite get_pop_eq, stat_errors_cons. simpl.
      now rewrite (from_convert_stat_errors path clog E).
    + intros q Hq. now rewrite get_pop_ne.
  - assert (Hpop :
      (forall q, q <> path ->
         stat_errors q [LogInfo (Processing path); LogWarning (Disappeared path)]
         = 0%nat)
      /\ (1 + match get (pop (file_timestamps h) path) path with
               | Some _ => 1 | None => 0 end
          = stat_errors path
              [LogInfo (Processing path); LogWarning (Disappeared path)] + 1)%nat).
    { split; [intros q _|]; rewrite ?get_pop_eq, !stat_errors_cons; reflexivity. }
    assert (Hkeep : forall e',
      (forall q, q <> path ->
         stat_errors q [LogInfo (Processing path);
                        LogError (ErrorProcessing path e')] = 0%nat)
      /\ stat_errors path [LogInfo (Processing path);
                           LogError (ErrorProcessing path e')] = 1%nat).
    { intros e'. split; [intros q Hq|]; rewrite !stat_errors_cons;
        cbn [is_stat_error]; [|now rewrite String.eqb_refl].
      destruct (String.eqb_spec q path); [congruence | reflexivity]. }
    destruct e; inversion H; subst; clear H;
      try (destruct (Hkeep PermissionError) as [Hk1 Hk2] ||
           destruct (Hkeep ValueError) as [Hk1 Hk2]).
    all: cbn [file_timestamps processed_mtimes with_timestamps].
    all: split; [auto|]; split; [auto|].
    all: try (destruct Hpop as [Hp1 Hp2]; split; [exact Hp1|];
              split; [intros _; exact Hp2 | intros q Hq; now rewrite get_pop_ne]).
    all: match goal with
         | |- context [ErrorProcessing _ ?e'] =>
             destruct (Hkeep e') as [Hk1' Hk2']; split; [exact Hk1'|];
             split; [|reflexivity]; intros Hget; rewrite Hk2';
             destruct (get (file_timestamps h') path); [reflexivity | congruence]
         end.
Qed.

Lemma processing_paths_app l1 l2 :
  processing_paths (l1 ++ l2) = processing_paths l1 ++ processing_paths l2.
Proof.
  induction l1 as [|r l1 IH]; [reflexivity|].
  simpl. destruct r as [[]|[]|[]]; simpl; now rewrite ?IH.
Qed.

Lemma from_convert_processing_paths log :
  Forall from_convert log -> processing_paths log = [].
Proof.
  induction 1 as [|r log Hr _ IH]; [reflexivity|].
  destruct r as [[]|[]|[]]; simpl in *; try contradiction; assumption.
Qed.

Lemma checking_log_processing_paths h : processing_paths (checking_log h) = [].
Proof.
  unfold checking_log.
  induction (file_timestamps h) as [|[k v] d IH]; simpl; auto.
Qed.

Lemma process_file_processing_paths clock h w path h' w' log :
  process_file clock h w path = (h', w', log) -> processing_paths log = [path].
Proof.
  unfold process_file. intros H.
  destruct (Fs.getmtime w path) as [t|e].
  - destruct (Convert.convert_lr_to_epic _ _ _ _) as [w1 clog] eqn:E.
    apply convert_log in E. inversion H; subst; clear H. simpl.
    now rewrite (from_convert_processing_paths clog E).
  - destruct e; inversion H; subst; reflexivity.
Qed.

Lemma process_files_processing_paths clock files :
  forall h w h' w' log,
    process_files clock h w files = (h', w', log) -> processing_paths log = files.
Proof.
  induction files as [|p files IH]; simpl; intros h w h' w' log H.
  - now inversion H.
  - destruct (process_file clock h w p) as [[h1 w1] log1] eqn:E1.
    destruct (process_files clock h1 w1 files) as [[h2 w2] log2] eqn:E2.
    inversion H; subst; clear H.
    rewrite processing_paths_app, (process_file_processing_paths _ _ _ _ _ _ _ E1),
      (IH _ _ _ _ _ E2).
    reflexivity.
Qed.

(** The account of the whole second loop, over ready paths that are all
    tracked and all different. *)
Lemma process_files_account clock files :
  forall h w h' w' log,
    process_files clock h w files = (h', w', log) ->
    List.NoDup files ->
    (forall p, In p files -> get (file_timestamps h) p <> None) ->
    (forall q, is_Some (processed_mtimes h !! q) -> is_Some (processed_mtimes h' !! q))
    /\ (forall q, is_Some (processed_mtimes h' !! q) ->
                  is_Some (processed_mtimes h !! q) \/ In q files)
    /\ (forall q, ~ In q files ->
          stat_errors q log = 0%nat /\ tracked h' q = tracked h q)
    /\ (forall q, In q files ->
          (1 + tracked h' q = stat_errors q log + 1)%nat).
Proof.
  induction files as [|p files IH]; simpl; intros h w h' w' log H Hnd Hall.
  - inversion H; subst. repeat split; auto; tauto.
  - destruct (process_file clock h w p) as [[h1 w1] log1] eqn:E1.
    destruct (process_files clock h1 w1 files) as [[h2 w2] log2] eqn:E2.
    inversion H; subst; clear H.
    inversion Hnd as [|? ? Hnp Hnd']; subst.
    destruct (process_file_account _ _ _ _ _ _ _ E1) as (Hm1 & Hn1 & He1 & Ha1 & Ht1).
    assert (Hall' : forall q, In q files -> get (file_timestamps h1) q <> None).
    { intros q Hq. assert (Hqp : q <> p) by (intros ->; tauto).
      specialize (Ht1 q Hqp). specialize (Hall q (or_intror Hq)).
      unfold tracked in Ht1.
      destruct (get (file_timestamps h1) q), (get (file_timestamps h) q);
        congruence. }
    destruct (IH _ _ _ _ _ E2 Hnd' Hall') as (Hm2 & Hn2 & He2 & Ha2).
    split; [auto|]. split.
    { intros q Hq. destruct (Hn2 q Hq) as [Hq'|Hq']; [|auto].
      destruct (Hn1 q Hq'); auto. }
    split.
    { intros q Hq. assert (Hqp : q <> p) by (intros ->; tauto).
      destruct (He2 q) as [He Ht]; [tauto|].
      rewrite stat_errors_app, He1, He, Ht, Ht1 by assumption. auto. }
    intros q [<-|Hq].
    + destruct (He2 p Hnp) as [He Ht].
      rewrite stat_errors_app, He, Ht, Nat.add_0_r.
      apply Ha1. apply Hall. now left.
    + assert (Hqp : q <> p) by (intros ->; tauto).
      rewrite stat_errors_app, He1 by assumption. now apply Ha2.
Qed.

(** The account of a poll cycle. *)
Lemma cycle_account h w now clock h' w' log :
  wf (file_timestamps h) ->
  check_and_process_files h w now clock = (h', w', log) ->
  processing_paths log = files_to_process h now
  /\ (forall q, is_Some (processed_mtimes h !! q) -> is_Some (processed_mtimes h' !! q))
  /\ (forall q, is_Some (processed_mtimes h' !! q) ->
                is_Some (processed_mtimes h !! q) \/ In q (files_to_process h now))
  /\ (forall q, (dispatches q log + tracked h' q
                 = stat_errors q log + tracked h q)%nat)
  /\ (forall q, tracked h q = 0%nat ->
        dispatches q log = 0%nat /\ stat_errors q log = 0%nat
        /\ processed_mtimes h' !! q = processed_mtimes h !! q).
Proof.
  intros Hwf H. unfold check_and_process_files in H.
  destruct (process_files clock h w (files_to_process h now))
    as [[h2 w2] log2] eqn:E.
  inversion H; subst; clear H.
  pose proof (NoDup_files_to_process h now Hwf) as Hnd.
  assert (Hall : forall p, In p (files_to_process h now) ->
                 get (file_timestamps h) p <> None).
  { intros p Hp. apply files_to_process_keys in Hp as [last [Hin _]].
    now rewrite (get_In _ _ _ Hwf Hin). }
  destruct (process_files_account _ _ _ _ _ _ _ E Hnd Hall) as (Hm & Hn & He & Ha).
  pose proof (process_files_ok _ _ _ _ _ _ _ E) as Hok. destruct Hok.
  assert (Hcount : forall q,
             dispatches q (checking_log h ++ log2)
             = if in_dec string_dec q (files_to_process h now) then 1%nat else 0%nat).
  { intros q. rewrite dispatches_app, checking_log_dispatches, pls_dispatches0.
    simpl. clear - Hnd. induction Hnd as [|p l Hp _ IH]; [reflexivity|].
    cbn [List.filter]. destruct (String.eqb_spec q p) as [->|Hne].
    - destruct (in_dec string_dec p (p :: l)) as [_|Hn]; [|exfalso; apply Hn; now left].
      cbn [length]. rewrite IH.
      destruct (in_dec string_dec p l); [contradiction | reflexivity].
    - rewrite IH.
      destruct (in_dec string_dec q l), (in_dec string_dec q (p :: l));
        simpl in *; try reflexivity; exfalso; intuition congruence. }
  split.
  { rewrite processing_paths_app, checking_log_processing_paths.
    exact (process_files_processing_paths _ _ _ _ _ _ _ E). }
  split; [assumption|]. split; [assumption|].
  split.
  - intros q. rewrite Hcount, stat_errors_app, checking_log_stat_errors.
    destruct (in_dec string_dec q (files_to_process h now)) as [Hq|Hq].
    + specialize (Ha q Hq). specialize (Hall q Hq). unfold tracked in *.
      destruct (get (file_timestamps h) q); [lia | congruence].
    + destruct (He q Hq) as [-> ->]. reflexivity.
  - intros q Hq.
    assert (Hnin : ~ In q (files_to_process h now)).
    { intros Hin. specialize (Hall q Hin). unfold tracked in Hq.
      destruct (get (file_timestamps h) q); [discriminate | congruence]. }
    rewrite Hcount, stat_errors_app, checking_log_stat_errors.
    destruct (in_dec string_dec q (files_to_process h now)); [contradiction|].
    destruct (He q Hnin) as [-> _]. auto.
Qed.

End RunFacts.

Module Invariants.

Import PyDict PyDictFacts Handler Run Observe HandlerFacts Claims Tally RunFacts.

Lemma callback_log h w now ev (created : bool) h' log :
  (if created then on_created h w now ev else on_modified h w now ev) = Ok (h', log) ->
  processing_paths log = [].
Proof.
  destruct created; unfold on_created, on_modified;
    destruct (is_directory ev); try (intros H; inversion H; subst; reflexivity);
    destruct (PyStr.endswith (src_path ev) ".dat");
    try (intros H; inversion H; subst; reflexivity);
    destruct (_should_track h w (src_path ev)) as [[|]|e]; simpl;
    intros H; inversion H; subst; reflexivity.
Qed.

Lemma step_config h w a h1 w1 log1 :
  step h w a = (h1, w1, log1) ->
  output_dir h1 = output_dir h /\ inactivity_period h1 = inactivity_period h.
Proof.
  assert (Hcb : forall now ev (created : bool),
             callback h w (if created then on_created h w now ev
                           else on_modified h w now ev) = (h1, w1, log1) ->
             output_dir h1 = output_dir h
             /\ inactivity_period h1 = inactivity_period h).
  { intros now ev created.
    destruct (if created then on_created h w now ev else on_modified h w now ev)
      as [[h' lg]|e] eqn:E; simpl; intros H; inversion H; subst; [|auto].
    destruct (callback_stamps _ _ _ _ _ _ _ E) as [[->|(_ & _ & ->)] _]; auto. }
  destruct a as [now ev|now ev|now clock|w0]; simpl; intros H.
  - exact (Hcb now ev true H).
  - exact (Hcb now ev false H).
  - unfold check_and_process_files in H.
    destruct (process_files clock h w (files_to_process h now))
      as [[h2 w2] log2] eqn:E.
    inversion H; subst. apply process_files_ok in E. destruct E. auto.
  - inversion H; subst. auto.
Qed.

Lemma step_well_kept h w a h1 w1 log1 :
  well_kept h ->
  step h w a = (h1, w1, log1) ->
  well_kept h1 /\ Forall ends_dat (processing_paths log1).
Proof.
  intros (Hwf & Hkeys & Hmarks).
  assert (Hcb : forall now ev (created : bool),
             callback h w (if created then on_created h w now ev
                           else on_modified h w now ev) = (h1, w1, log1) ->
             well_kept h1 /\ Forall ends_dat (processing_paths log1)).
  { intros now ev created.
    destruct (if created then on_created h w now ev else on_modified h w now ev)
      as [[h' lg]|e] eqn:E; simpl; intros H; inversion H; subst;
      [|repeat split; auto].
    rewrite (callback_log _ _ _ _ _ _ _ E).
    destruct (callback_stamps _ _ _ _ _ _ _ E) as [[->|(Hdat & _ & ->)] _];
      [repeat split; auto|].
    split; [|constructor]. split; [now apply wf_set|]. split; [|assumption].
    simpl. apply List.Forall_forall. intros q Hq. apply keys_set in Hq as [Hq|<-].
    - rewrite List.Forall_forall in Hkeys. auto.
    - assumption. }
  destruct a as [now ev|now ev|now clock|w0]; simpl; intros H.
  - exact (Hcb now ev true H).
  - exact (Hcb now ev false H).
  - destruct (cycle_account _ _ _ _ _ _ _ Hwf H) as (Hpaths & _ & Hnew & _).
    assert (Hfiles : Forall ends_dat (files_to_process h now)).
    { apply List.Forall_forall. intros q Hq.
      apply files_to_process_keys in Hq as [last [Hin _]].
      rewrite List.Forall_forall in Hkeys. apply Hkeys.
      change (In (fst (q, last)) (map fst (file_timestamps h))). now apply in_map. }
    unfold check_and_process_files in H.
    destruct (process_files clock h w (files_to_process h now))
      as [[h2 w2] log2] eqn:E.
    inversion H; subst; clear H.
    apply process_files_ok in E. destruct E.
    rewrite Hpaths. split; [|assumption].
    split; [auto|]. split.
    + apply List.Forall_forall. intros q Hq. rewrite List.Forall_forall in Hkeys. auto.
    + intros q Hq. destruct (Hnew q Hq) as [Hold|Hin]; [auto|].
      rewrite List.Forall_forall in Hfiles. auto.
  - inversion H; subst. repeat split; auto.
Qed.

Lemma run_well_kept acts :
  forall h w,
    well_kept h ->
    well_kept (run h w acts).1.1
    /\ Forall ends_dat (processing_paths (run h w acts).2)
    /\ output_dir (run h w acts).1.1 = output_dir h
    /\ inactivity_period (run h w acts).1.1 = inactivity_period h.
Proof.
  induction acts as [|a acts IH]; intros h w Hk; simpl.
  - repeat split; try apply Hk. constructor.
  - destruct (step h w a) as [[h1 w1] log1] eqn:E1.
    destruct (step_well_kept _ _ _ _ _ _ Hk E1) as [Hk1 Hp1].
    destruct (step_config _ _ _ _ _ _ E1) as [Ho1 Hi1].
    specialize (IH h1 w1 Hk1).
    destruct (run h1 w1 acts) as [[h2 w2] log2]. simpl in *.
    destruct IH as (Hk2 & Hp2 & Ho2 & Hi2).
    split; [assumption|]. split; [|split; congruence].
    rewrite processing_paths_app. apply Forall_app. split; assumption.
Qed.

(** X1. Only [.dat] paths: whatever events, polls and changes of the
    file system follow the creation of the handler, every path it
    tracks, every path it has a marker for and every path it dispatches
    ends in ".dat". *)
Theorem only_dat_paths output_dir0 inactivity_period0 w acts :
  Forall ends_dat
    (keys (file_timestamps (run (init output_dir0 inactivity_period0) w acts).1.1))
  /\ set_Forall ends_dat
       (dom (processed_mtimes (run (init output_dir0 inactivity_period0) w acts).1.1))
  /\ Forall ends_dat
       (processing_paths (run (init output_dir0 inactivity_period0) w acts).2).
Proof.
  assert (Hk : well_kept (init output_dir0 inactivity_period0)).
  { split; [constructor|]. split; [constructor|].
    intros q [x Hx]. simpl in Hx. now rewrite lookup_empty in Hx. }
  destruct (run_well_kept acts _ w Hk) as ((_ & Hkeys & Hmarks) & Hp & _).
  split; [assumption|]. split; [|assumption].
  intros q Hq. apply Hmarks. now apply elem_of_dom.
Qed.

(** X2. One entry per path, fixed configuration: after any events,
    polls and changes of the file system that follow the creation of
    the handler, [file_timestamps] holds every path at most once, and
    the output directory and the inactivity period are those the
    handler was created with. *)
Theorem one_entry_per_path output_dir0 inactivity_period0 w acts :
  wf (file_timestamps (run (init output_dir0 inactivity_period0) w acts).1.1)
  /\ output_dir (run (init output_dir0 inactivity_period0) w acts).1.1 = output_dir0
  /\ inactivity_period (run (init output_dir0 inactivity_period0) w acts).1.1
     = inactivity_period0.
Proof.
  assert (Hk : well_kept (init output_dir0 inactivity_period0)).
  { split; [constructor|]. split; [constructor|].
    intros q [x Hx]. simpl in Hx. now rewrite lookup_empty in Hx. }
  destruct (run_well_kept acts _ w Hk) as ((Hwf & _) & _ & Ho & Hi).
  auto.
Qed.

End Invariants.

Module Ledger.

Import PyDict PyDictFacts Handler Run Observe HandlerFacts Claims Tally RunFacts.

Lemma process_files_marks_kept clock files :
  forall h w h' w' log,
    process_files clock h w files = (h', w', log) ->
    forall q, is_Some (processed_mtimes h !! q) -> is_Some (processed_mtimes h' !! q).
Proof.
  induction files as [|p files IH]; simpl; intros h w h' w' log H q Hq.
  - now inversion H; subst.
  - destruct (process_file clock h w p) as [[h1 w1] log1] eqn:E1.
    destruct (process_files clock h1 w1 files) as [[h2 w2] log2] eqn:E2.
    inversion H; subst; clear H.
    destruct (process_file_account _ _ _ _ _ _ _ E1) as (Hm1 & _).
    eauto.
Qed.

Lemma step_marks_kept h w a h1 w1 log1 :
  step h w a = (h1, w1, log1) ->
  forall q, is_Some (processed_mtimes h !! q) -> is_Some (processed_mtimes h1 !! q).
Proof.
  assert (Hcb : forall now ev (created : bool),
             callback h w (if created then on_created h w now ev
                           else on_modified h w now ev) = (h1, w1, log1) ->
             processed_mtimes h1 = processed_mtimes h).
  { intros now ev created.
    destruct (if created then on_created h w now ev else on_modified h w now ev)
      as [[h' lg]|e] eqn:E; simpl; intros H; inversion H; subst; [|reflexivity].
    destruct (callback_stamps _ _ _ _ _ _ _ E) as [[->|(_ & _ & ->)] _]; reflexivity. }
  destruct a as [now ev|now ev|now clock|w0]; simpl; intros H q Hq.
  - now rewrite (Hcb now ev true H).
  - now rewrite (Hcb now ev false H).
  - unfold check_and_process_files in H.
    destruct (process_files clock h w (files_to_process h now))
      as [[h2 w2] log2] eqn:E.
    inversion H; subst. eapply process_files_marks_kept; eassumption.
  - now inversion H; subst.
Qed.

(** X3. Markers are never removed: over any events, polls and changes
    of the file system, every path that has an entry in
    [processed_mtimes] still has one afterwards. *)
Theorem markers_never_removed h w acts :
  dom (processed_mtimes h) ⊆ dom (processed_mtimes (run h w acts).1.1).
Proof.
  revert h w. induction acts as [|a acts IH]; intros h w; simpl; [done|].
  destruct (step h w a) as [[h1 w1] log1] eqn:E1.
  specialize (IH h1 w1).
  destruct (run h1 w1 acts) as [[h2 w2] log2]. simpl in *.
  intros q Hq. apply IH. apply elem_of_dom. apply elem_of_dom in Hq.
  eapply step_marks_kept; eassumption.
Qed.

Lemma step_account h w a path h1 w1 log1 :
  wf (file_timestamps h) ->
  no_event_on path a ->
  step h w a = (h1, w1, log1) ->
  wf (file_timestamps h1)
  /\ (dispatches path log1 + tracked h1 path
      = stat_errors path log1 + tracked h path)%nat
  /\ (tracked h path = 0%nat ->
      dispatches path log1 = 0%nat /\ stat_errors path log1 = 0%nat
      /\ processed_mtimes h1 !! path = processed_mtimes h !! path).
Proof.
  intros Hwf Hno.
  assert (Hcb : forall now ev (created : bool),
             src_path ev <> path ->
             callback h w (if created then on_created h w now ev
                           else on_modified h w now ev) = (h1, w1, log1) ->
             wf (file_timestamps h1)
             /\ (dispatches path log1 + tracked h1 path
                 = stat_errors path log1 + tracked h path)%nat
             /\ (tracked h path = 0%nat ->
                 dispatches path log1 = 0%nat /\ stat_errors path log1 = 0%nat
                 /\ processed_mtimes h1 !! path = processed_mtimes h !! path)).
  { intros now ev created Hne.
    destruct (if created then on_created h w now ev else on_modified h w now ev)
      as [[h' lg]|e] eqn:E; simpl; intros H; inversion H; subst;
      [|repeat split; auto].
    destruct (callback_stamps _ _ _ _ _ _ _ E) as [[->|(_ & _ & ->)] [Hd He]];
      rewrite Hd, He; [repeat split; auto|].
    unfold tracked. simpl. rewrite get_set_ne by assumption.
    repeat split; auto. now apply wf_set. }
  destruct a as [now ev|now ev|now clock|w0]; simpl in *; intros H.
  - exact (Hcb now ev true Hno H).
  - exact (Hcb now ev false Hno H).
  - destruct (cycle_account _ _ _ _ _ _ _ Hwf H) as (_ & _ & _ & Ha & Hu).
    split; [|auto].
    unfold check_and_process_files in H.
    destruct (process_files clock h w (files_to_process h now))
      as [[h2 w2] log2] eqn:E.
    inversion H; subst. apply process_files_ok in E. destruct E. auto.
  - inversion H; subst. repeat split; auto.
Qed.

(** X4. The account of a path.  Over any polls, changes of the file
    system and events on other paths, every dispatch of the path either
    ends its tracking or is logged as an error of the dispatcher: the
    dispatches and the entry that is left add up to the logged errors
    and the entry there was.  So a path is dispatched once, and again
    only after a dispatch that ended in such an error. *)
Theorem dispatch_account acts :
  forall h w path,
    wf (file_timestamps h) ->
    Forall (no_event_on path) acts ->
    (dispatches path (run h w acts).2 + tracked (run h w acts).1.1 path
     = stat_errors path (run h w acts).2 + tracked h path)%nat.
Proof.
  induction acts as [|a acts IH]; intros h w path Hwf Hno; simpl; [reflexivity|].
  inversion Hno as [|? ? Ha Hrest]; subst.
  destruct (step h w a) as [[h1 w1] log1] eqn:E1.
  destruct (step_account _ _ _ _ _ _ _ Hwf Ha E1) as (Hwf1 & Hacc & _).
  specialize (IH h1 w1 path Hwf1 Hrest).
  destruct (run h1 w1 acts) as [[h2 w2] log2]. simpl in *.
  rewrite dispatches_app, stat_errors_app. lia.
Qed.

(** X4, on [Examples.h_one] while the [stat] of [dat] is refused:
    three polls, three dispatches, three errors, and [dat] still
    tracked. *)
Lemma dispatch_account_witness :
  (dispatches Examples.dat Samples.refused_run.2
   + tracked Samples.refused_run.1.1 Examples.dat
   = stat_errors Examples.dat Samples.refused_run.2
     + tracked Examples.h_one Examples.dat)%nat.
Proof.
  apply (dispatch_account Samples.refused_polls Examples.h_one Examples.w_denied
           Examples.dat).
  - repeat constructor; simpl; intuition discriminate.
  - repeat constructor. vm_compute. discriminate.
Defined.

(** X5. No event, no dispatch.  While no event reports a path that is
    not tracked, no poll dispatches it: over any polls, changes of the
    file system and events on other paths it is never dispatched, no
    error is logged for it, its marker is what it was, and it stays
    untracked. *)
Theorem untracked_never_dispatched acts :
  forall h w path,
    wf (file_timestamps h) ->
    get (file_timestamps h) path = None ->
    Forall (no_event_on path) acts ->
    dispatches path (run h w acts).2 = 0%nat
    /\ stat_errors path (run h w acts).2 = 0%nat
    /\ processed_mtimes (run h w acts).1.1 !! path = processed_mtimes h !! path
    /\ get (file_timestamps (run h w acts).1.1) path = None.
Proof.
  induction acts as [|a acts IH]; intros h w path Hwf Hget Hno; simpl; [auto|].
  inversion Hno as [|? ? Ha Hrest]; subst.
  destruct (step h w a) as [[h1 w1] log1] eqn:E1.
  assert (Ht : tracked h path = 0%nat) by (unfold tracked; now rewrite Hget).
  destruct (step_account _ _ _ _ _ _ _ Hwf Ha E1) as (Hwf1 & Hacc & Hu).
  destruct (Hu Ht) as (Hd1 & He1 & Hm1).
  assert (Hget1 : get (file_timestamps h1) path = None).
  { rewrite Hd1, He1, Ht in Hacc. unfold tracked in Hacc.
    destruct (get (file_timestamps h1) path); [discriminate | reflexivity]. }
  specialize (IH h1 w1 path Hwf1 Hget1 Hrest).
  destruct (run h1 w1 acts) as [[h2 w2] log2]. simpl in *.
  destruct IH as (Hd2 & He2 & Hm2 & Hg2).
  rewrite dispatches_app, stat_errors_app, Hd1, He1, Hd2, He2, Hm2, Hm1. auto.
Qed.

(** X5, on [Examples.h_none]: events and a poll for [dat2], none for
    [dat]. *)
Lemma untracked_never_dispatched_witness :
  dispatches Examples.dat Samples.other_run.2 = 0%nat
  /\ stat_errors Examples.dat Samples.other_run.2 = 0%nat
  /\ processed_mtimes Samples.other_run.1.1 !! Examples.dat
     = processed_mtimes Examples.h_none !! Examples.dat
  /\ get (file_timestamps Samples.other_run.1.1) Examples.dat = None.
Proof.
  apply (untracked_never_dispatched Samples.other_actions Examples.h_none
           Examples.w_both Examples.dat).
  - constructor.
  - reflexivity.
  - repeat constructor; vm_compute; discriminate.
Defined.

End Ledger.

Module PollFacts.

Import PyDict PyDictFacts Handler Run Observe HandlerFacts Claims Tally RunFacts.


Lemma filter_pop {V} (g : string * V -> bool) (d : dict V) k v :
  wf d -> get d k = Some v -> g (k, v) = false ->
  List.filter g (pop d k) = List.filter g d.
Proof.
  unfold wf. induction d as [|[k0 v0] d IH]; simpl; intros Hwf Hget Hg; [reflexivity|].
  inversion Hwf as [|? ? Hn Hd]; subst.
  destruct (String.eqb_spec k k0) as [->|Hne].
  - inversion Hget; subst. rewrite Hg.
    apply get_None_keys in Hn. clear - Hn.
    induction d as [|[k1 v1] d IH]; simpl in *; [reflexivity|].
    destruct (String.eqb_spec k0 k1) as [->|Hne]; [discriminate|].
    simpl. now rewrite IH.
  - simpl. now rewrite IH.
Qed.

Lemma process_file_timestamps clock h w path h' w' log :
  process_file clock h w path = (h', w', log) ->
  file_timestamps h' = file_timestamps h
  \/ file_timestamps h' = pop (file_timestamps h) path.
Proof.
  unfold process_file. intros H.
  destruct (Fs.getmtime w path) as [t|e].
  - destruct (Convert.convert_lr_to_epic _ _ _ _) as [w1 clog].
    inversion H; subst. now right.
  - destruct e; inversion H; subst; auto.
Qed.

Lemma process_files_keep clock files {g : string * Z -> bool} :
  forall h w h' w' log,
    process_files clock h w files = (h', w', log) ->
    wf (file_timestamps h) ->
    List.NoDup files ->
    (forall p, In p files ->
       exists v, get (file_timestamps h) p = Some v /\ g (p, v) = false) ->
    List.filter g (file_timestamps h') = List.filter g (file_timestamps h)
    /\ forall q v, get (file_timestamps h') q = Some v ->
                   get (file_timestamps h) q = Some v.
Proof.
  induction files as [|p files IH]; simpl; intros h w h' w' log H Hwf Hnd Hall.
  - inversion H; subst. auto.
  - destruct (process_file clock h w p) as [[h1 w1] log1] eqn:E1.
    destruct (process_files clock h1 w1 files) as [[h2 w2] log2] eqn:E2.
    inversion H; subst; clear H.
    inversion Hnd as [|? ? Hnp Hnd']; subst.
    pose proof (process_file_ok _ _ _ _ _ _ _ E1) as Hok. destruct Hok.
    destruct (Hall p (or_introl eq_refl)) as [v [Hv Hg]].
    assert (Hall' : forall q, In q files ->
               exists v, get (file_timestamps h1) q = Some v /\ g (q, v) = false).
    { intros q Hq. rewrite pfs_other_ts0 by (intros ->; tauto). auto. }
    destruct (IH _ _ _ _ _ E2 (pfs_wf0 Hwf) Hnd' Hall') as [Hf2 Hg2].
    destruct (process_file_timestamps _ _ _ _ _ _ _ E1) as [Heq|Heq].
    + rewrite Hf2, Heq. split; [reflexivity|].
      intros q v' Hq. apply Hg2 in Hq. now rewrite Heq in Hq.
    + rewrite Hf2, Heq. split; [now apply (filter_pop g _ p v)|].
      intros q v' Hq. apply Hg2 in Hq. rewrite Heq in Hq.
      destruct (string_dec p q) as [->|Hne].
      * now rewrite get_pop_eq in Hq.
      * now rewrite get_pop_ne in Hq.
Qed.

(** X6. A poll takes nothing but ready entries: the entries that are
    still within their inactivity window are all kept, in their order
    and with their timestamps, and whatever entry is left after the
    poll was there before it, with the same timestamp. *)
Theorem poll_keeps_active h w now clock h' w' log :
  wf (file_timestamps h) ->
  check_and_process_files h w now clock = (h', w', log) ->
  still_active h now (file_timestamps h') = still_active h now (file_timestamps h)
  /\ forall q v, get (file_timestamps h') q = Some v ->
                 get (file_timestamps h) q = Some v.
Proof.
  intros Hwf H. unfold check_and_process_files in H.
  destruct (process_files clock h w (files_to_process h now))
    as [[h2 w2] log2] eqn:E.
  inversion H; subst; clear H.
  apply (process_files_keep clock (files_to_process h now)
           (g := fun item => negb (inactive h now item)) _ _ _ _ _ E Hwf).
  - now apply NoDup_files_to_process.
  - intros p Hp. apply files_to_process_keys in Hp as [last [Hin Hlt]].
    exists last. split; [now apply get_In|].
    unfold inactive. simpl. apply negb_false_iff. now apply Z.ltb_lt.
Qed.

(** X6, on [Samples.h_mixed]: [dat] is ready and converted, [dat2] is
    not and stays. *)
Lemma poll_keeps_active_witness :
  still_active Samples.h_mixed (seconds 31) (file_timestamps Samples.mixed_poll.1.1)
  = still_active Samples.h_mixed (seconds 31) (file_timestamps Samples.h_mixed)
  /\ forall q v, get (file_timestamps Samples.mixed_poll.1.1) q = Some v ->
                 get (file_timestamps Samples.h_mixed) q = Some v.
Proof.
  apply (poll_keeps_active Samples.h_mixed Examples.w_both (seconds 31)
           Examples.clock_2025 Samples.mixed_poll.1.1 Samples.mixed_poll.1.2
           Samples.mixed_poll.2).
  - repeat constructor; simpl; intuition discriminate.
  - vm_compute. reflexivity.
Defined.

(** X7. A poll dispatches the ready paths in the order of their entries
    in [file_timestamps], the order in which they were first tracked:
    the "Processing file" records of the cycle name exactly the paths
    whose entry is older than the inactivity period, each once per
    entry, in that order. *)
Theorem dispatch_in_insertion_order h w now clock :
  processing_paths (check_and_process_files h w now clock).2
  = map fst (List.filter (fun item : string * Z =>
                            inactivity_period h <? now - snd item)
                         (file_timestamps h)).
Proof.
  unfold check_and_process_files.
  destruct (process_files clock h w (files_to_process h now))
    as [[h2 w2] log2] eqn:E. simpl.
  rewrite processing_paths_app, checking_log_processing_paths.
  exact (process_files_processing_paths _ _ _ _ _ _ _ E).
Qed.

Lemma keys_set_order {V} (d : dict V) k v :
  keys (set d k v) = if in_dec string_dec k (keys d) then keys d else keys d ++ [k].
Proof.
  induction d as [|[k0 v0] d IH]; simpl; [reflexivity|].
  destruct (String.eqb_spec k k0) as [->|Hne]; simpl.
  - destruct (string_dec k0 k0); [reflexivity | congruence].
  - rewrite IH. destruct (string_dec k0 k) as [Heq|Hk]; [congruence|].
    now destruct (in_dec string_dec k (keys d)).
Qed.

(** X8. Events keep the order of the entries: a callback that returns
    leaves the tracked paths in their order, and a path that it starts
    to track goes last.  A path that gets further events keeps its
    place, so its turn in a poll does not move. *)
Theorem events_keep_order h w now ev (created : bool) h' log :
  (if created then on_created h w now ev else on_modified h w now ev) = Ok (h', log) ->
  keys (file_timestamps h') = keys (file_timestamps h)
  \/ (~ In (src_path ev) (keys (file_timestamps h))
      /\ keys (file_timestamps h') = keys (file_timestamps h) ++ [src_path ev]).
Proof.
  intros H.
  destruct (callback_stamps _ _ _ _ _ _ _ H) as [[Heq|(_ & _ & Heq)] _]; subst h'.
  - now left.
  - simpl. rewrite keys_set_order.
    destruct (in_dec string_dec _ _) as [|Hn]; [now left | now right].
Qed.

(** X8, on [Examples.h_two]: a further event on [dat], the first of its
    two entries. *)
Lemma events_keep_order_witness :
  keys (file_timestamps
          (with_timestamps Examples.h_two
             (set (file_timestamps Examples.h_two) Examples.dat (seconds 9))))
  = keys (file_timestamps Examples.h_two)
  \/ (~ In (src_path Examples.touch_dat) (keys (file_timestamps Examples.h_two))
      /\ keys (file_timestamps
                 (with_timestamps Examples.h_two
                    (set (file_timestamps Examples.h_two) Examples.dat (seconds 9))))
         = keys (file_timestamps Examples.h_two) ++ [src_path Examples.touch_dat]).
Proof.
  apply (events_keep_order Examples.h_two (Examples.w_one Examples.high)
           (seconds 9) Examples.touch_dat false _ []).
  reflexivity.
Defined.

End PollFacts.

Module Callbacks.

Import PyDict PyDictFacts Handler Run Observe HandlerFacts Claims Tally RunFacts
       PollFacts.

(** X9. Creation and modification events are filtered alike: on the
    same handler, file system and clock reading, [on_created] and
    [on_modified] leave the same handler, or raise the same exception;
    they differ only in the log record of [on_created]. *)
Theorem created_like_modified h w now ev :
  match on_created h w now ev, on_modified h w now ev with
  | Ok (h1, _), Ok (h2, _) => h1 = h2
  | Raise e1, Raise e2 => e1 = e2
  | _, _ => False
  end.
Proof.
  unfold on_created, on_modified.
  destruct (is_directory ev); [reflexivity|].
  destruct (PyStr.endswith (src_path ev) ".dat"); [|reflexivity].
  destruct (_should_track h w (src_path ev)) as [[|]|e]; reflexivity.
Qed.



End Callbacks.

(** ** The debounce *)

Module DebounceClaim.

Import PyDict PyDictFacts Handler Run Observe HandlerFacts Claims Tally RunFacts
       PollFacts.





End DebounceClaim.

(** ** Further properties of the conversion *)

Module Footprint.

Import PyDatetime Convert Observe ConvertFacts Tally.

Lemma write_other t p s w q : p <> q -> Fs.write t p s w !! q = w !! q.
Proof.
  intros Hne. unfold Fs.write. destruct (w !! p) as [[f| |]|]; try reflexivity.
  now rewrite lookup_insert_ne.
Qed.

Lemma writelines_other t p ls q :
  p <> q -> forall w, Fs.writelines t p ls w !! q = w !! q.
Proof.
  intros Hne. unfold Fs.writelines.
  induction ls as [|l ls IH]; simpl; intros w; [reflexivity|].
  rewrite IH. now apply write_other.
Qed.

Lemma open_append_other t p w w2 q :
  Fs.open_append t p w = Ok w2 -> p <> q -> w2 !! q = w !! q.
Proof.
  unfold Fs.open_append. destruct (w !! p) as [[f| |]|]; try discriminate.
  - destruct (Fs.appendable f); [|discriminate]. intros H _. now inversion H.
  - intros H Hne. inversion H; subst. now rewrite lookup_insert_ne.
Qed.

(** [os.makedirs] changes nothing but the missing paths of its chain,
    which it makes directories. *)
Lemma makedirs_nodes t dirs :
  forall w w1 r q,
    Fs.makedirs t dirs w = (w1, r) ->
    w1 !! q = w !! q
    \/ (In q dirs /\ w !! q = None /\ w1 !! q = Some (Fs.Directory t)).
Proof.
  induction dirs as [|d dirs IH]; simpl; intros w w1 r q H.
  - inversion H; subst. now left.
  - destruct (w !! d) as [[f| |]|] eqn:E.
    + inversion H; subst. now left.
    + destruct (IH _ _ _ q H) as [Hq|(Hin & Hq & Hq1)]; [now left|].
      right. auto.
    + inversion H; subst. now left.
    + destruct (IH _ _ _ q H) as [Hq|(Hin & Hq & Hq1)].
      * destruct (string_dec d q) as [->|Hne].
        -- right. rewrite Hq, lookup_insert_eq. auto.
        -- left. now rewrite Hq, lookup_insert_ne.
      * destruct (string_dec d q) as [->|Hne].
        -- now rewrite lookup_insert_eq in Hq.
        -- rewrite lookup_insert_ne in Hq by assumption. right. auto.
Qed.

(** After a [makedirs] that returns, its chain is all directories. *)
Lemma makedirs_made t dirs :
  forall w w1,
    Fs.makedirs t dirs w = (w1, Ok tt) ->
    forall d, In d dirs -> exists t', w1 !! d = Some (Fs.Directory t').
Proof.
  induction dirs as [|d0 dirs IH]; simpl; intros w w1 H d Hd; [contradiction|].
  destruct (w !! d0) as [[f| |]|] eqn:E; try discriminate.
  - destruct Hd as [<-|Hd]; [|eauto].
    destruct (makedirs_nodes _ _ _ _ _ d0 H) as [Hq|(_ & Hq & _)].
    + rewrite Hq, E. eauto.
    + congruence.
  - destruct Hd as [<-|Hd]; [|eauto].
    destruct (makedirs_nodes _ _ _ _ _ d0 H) as [Hq|(_ & Hq & _)].
    + rewrite Hq, lookup_insert_eq. eauto.
    + now rewrite lookup_insert_eq in Hq.
Qed.






(** X13. After a conversion that reaches its end, the directories on
    the way to the output file (the output base directory and the
    directories above it, the year directory and the dated directory)
    are all there, as directories, and the output file is a regular
    file. *)
Theorem converted_leaves_directories file_path base clock w w' log lines out d :
  convert_body file_path base clock w = (w', log, Ok (lines, out)) ->
  (forall now, fromtimestamp clock = Ok now -> In d (output_dirs base now)) ->
  (exists t, w' !! d = Some (Fs.Directory t))
  /\ Fs.isfile w' out = true.
Proof.
  intros H Hd.
  assert (Hc := convert_body_converted _ _ _ _ _ _ _ _ H). destruct Hc.
  split; [|rewrite isfile_contents, cv_text0; reflexivity].
  unfold convert_body in H.
  destruct (rbind _ _); [|discriminate].
  destruct (Fs.read_lines _ _); [|discriminate].
  destruct (convert_lines _ _ _ _ _) as [lg [cl|]]; [|discriminate].
  destruct (fromtimestamp clock) as [now|] eqn:En; [|discriminate].
  destruct (Fs.makedirs clock (output_dirs base now) w) as [w1 [[]|]] eqn:Em;
    [|discriminate].
  destruct (Fs.open_append clock (output_file base now) w1) as [w2|] eqn:Eo;
    [|discriminate].
  inversion H; subst; clear H.
  destruct (makedirs_made _ _ _ _ Em d (Hd now eq_refl)) as [t' Ht'].
  exists t'.
  assert (Hne : output_file base now <> d).
  { intros <-. unfold Fs.open_append in Eo. rewrite Ht' in Eo. discriminate. }
  rewrite writelines_other by assumption.
  destruct (Fs.isfile w1 (output_file base now));
    rewrite ?write_other by assumption;
    now rewrite (open_append_other _ _ _ _ _ Eo Hne).
Qed.

(** X13, on [Examples.w_both]: out/2025/2025_03_07 after the first
    conversion. *)
Lemma converted_leaves_directories_witness :
  (exists t, Examples.first_conv.1.1 !! "out/2025/2025_03_07" = Some (Fs.Directory t))
  /\ Fs.isfile Examples.first_conv.1.1 Examples.out_2025 = true.
Proof.
  apply (converted_leaves_directories Examples.dat "out" Examples.t_2025
           Examples.w_both Examples.first_conv.1.1 Examples.first_conv.1.2
           [Examples.high_line] Examples.out_2025 "out/2025/2025_03_07").
  - vm_compute. reflexivity.
  - intros now H. vm_compute in H. inversion H; subst. vm_compute. auto.
Defined.

End Footprint.

Module LineFacts.

Import PyDatetime Convert Observe ConvertFacts Lines Tally.

Lemma skipped_fields base_time line :
  convert_line base_time line = Skipped
  <-> length (PyStr.split PyStr.tab (PyStr.strip line)) <> 2%nat.
Proof.
  unfold convert_line.
  destruct (PyStr.split PyStr.tab (PyStr.strip line)) as [|a [|b [|c l]]];
    simpl.
  - split; [lia | reflexivity].
  - split; [lia | reflexivity].
  - split; [|lia].
    destruct (convert_fields base_time a b) as [s|[]]; discriminate.
  - split; [lia | reflexivity].
Qed.

(** X14. Which lines are looked at: the loop passes over a line without
    a word exactly when the line, stripped of the white space at its two
    ends, does not hold exactly one tab. *)
Theorem skipped_iff_not_one_tab base_time line :
  convert_line base_time line = Skipped
  <-> count PyStr.tab (PyStr.strip line) <> 1%nat.
Proof.
  rewrite skipped_fields, length_split. lia.
Qed.

Lemma float_of_string_raises s e :
  PyFloat.float_of_string s = Raise e -> e = ValueError.
Proof.
  unfold PyFloat.float_of_string.
  destruct (PyFloat.drop_underscores None s); [|congruence].
  destruct (PyFloat.take_sign _) as [neg s2].
  destruct (PyFloat.parse_literal s2) as [[| |d x]|]; congruence.
Qed.

Lemma microseconds_to_delta_raises us e :
  microseconds_to_delta us = Raise e -> e = OverflowError.
Proof.
  unfold microseconds_to_delta. destruct (_ || _); congruence.
Qed.

Lemma timedelta_of_seconds_raises x e :
  timedelta_of_seconds x = Raise e -> e = ValueError \/ e = OverflowError.
Proof.
  assert (Hm : forall us, microseconds_to_delta us = Raise e ->
                          e = ValueError \/ e = OverflowError).
  { intros us H. right. eapply microseconds_to_delta_raises; eassumption. }
  assert (Ho : @Raise timedelta OverflowError = Raise e ->
               e = ValueError \/ e = OverflowError)
    by (intros H; inversion H; auto).
  assert (Hv : @Raise timedelta ValueError = Raise e ->
               e = ValueError \/ e = OverflowError)
    by (intros H; inversion H; auto).
  unfold timedelta_of_seconds.
  destruct x as [s|s| |s m ex]; [exact (Hm _) | exact Ho | exact Hv |].
  destruct (PyFloat.modf_abs m ex) as [[ip r] k].
  destruct (r =? 0); [exact (Hm _)|].
  destruct (SFmul _ _ _ _) as [s2|s2| |s2 m2 e2];
    [exact (Hm _) | exact Ho | exact Hv |].
  destruct (PyFloat.modf_abs m2 e2) as [[ip2 r2] k2]. exact (Hm _).
Qed.

Lemma add_raises dt td e : add dt td = Raise e -> e = OverflowError.
Proof.
  unfold add, of_us. destruct (_ || _); [congruence|].
  destruct (ord_to_ymd _) as [[y m] d]. discriminate.
Qed.

(** X15. What ends the loop: the only exception a line lets out of the
    loop is [OverflowError]; whatever else goes wrong with a line
    ([ValueError]) is caught by the inner [except], which logs the
    warning and goes on. *)
Theorem only_overflow_aborts base_time line e :
  convert_line base_time line = Aborted e -> e = OverflowError.
Proof.
  unfold convert_line.
  destruct (PyStr.split PyStr.tab (PyStr.strip line)) as [|a [|b [|c l]]];
    try discriminate.
  unfold convert_fields.
  destruct (PyFloat.float_of_string a) as [x|e1] eqn:E1; cbn [rbind].
  - destruct (timedelta_of_seconds x) as [td|e2] eqn:E2; cbn [rbind].
    + destruct (add base_time td) as [t|e3] eqn:E3; cbn [rbind]; [discriminate|].
      apply add_raises in E3. subst. intros H. now inversion H.
    + apply timedelta_of_seconds_raises in E2 as [->| ->]; intros H; now inversion H.
  - apply float_of_string_raises in E1. subst. discriminate.
Qed.

(** X15, on the line "1e300<TAB>X". *)
Lemma only_overflow_aborts_witness : OverflowError = OverflowError.
Proof.
  apply (only_overflow_aborts Examples.base_2024 Examples.huge_line OverflowError).
  vm_compute. reflexivity.
Defined.

Lemma split_one c s b : PyStr.split c s = [b] -> s = b.
Proof.
  revert b. induction s as [|x s IH]; simpl; intros b H.
  - now inversion H.
  - destruct (Ascii.eqb x c).
    + pose proof (length_split c s) as Hl. inversion H as [[Ha Hs]].
      rewrite Hs in Hl. discriminate.
    + destruct (PyStr.split c s) as [|p ps] eqn:E.
      * pose proof (length_split c s) as Hl. rewrite E in Hl. discriminate.
      * inversion H; subst. f_equal. now apply IH.
Qed.

(** A string that splits in two is its two parts around the separator. *)
Lemma split_two c s a b :
  PyStr.split c s = [a; b] ->
  s = a +:+ String c b /\ count c a = 0%nat /\ count c b = 0%nat.
Proof.
  intros H.
  assert (Hcount : count c s = 1%nat).
  { pose proof (length_split c s) as Hl. rewrite H in Hl. simpl in Hl. lia. }
  assert (Hs : s = a +:+ String c b).
  { clear Hcount. revert a H. induction s as [|x s IH]; simpl; intros a H.
    - discriminate.
    - destruct (Ascii.eqb_spec x c) as [->|Hne].
      + inversion H as [[Ha Hs]]. apply split_one in Hs. now subst.
      + destruct (PyStr.split c s) as [|p ps] eqn:E.
        * discriminate.
        * inversion H; subst. rewrite append_cons. f_equal. now apply IH. }
  split; [assumption|].
  rewrite Hs, count_app in Hcount. cbn [count] in Hcount.
  rewrite Ascii.eqb_refl in Hcount. lia.
Qed.

Lemma length_append (a b : string) :
  String.length (a +:+ b) = (String.length a + String.length b)%nat.
Proof.
  induction a as [|x a IH]; [reflexivity|].
  rewrite append_cons. simpl. now rewrite IH.
Qed.

Lemma length_zfill width :
  forall n acc, String.length (zfill width n acc) = (width + String.length acc)%nat.
Proof.
  induction width as [|width IH]; intros n acc; [reflexivity|].
  cbn [zfill]. rewrite IH. simpl. lia.
Qed.

Lemma length_strftime_Y y acc :
  String.length (strftime_Y y acc)
  = (String.length (strftime_Y y "") + String.length acc)%nat
  /\ (1 <= String.length (strftime_Y y "") <= 4)%nat
  /\ (1000 <= y -> String.length (strftime_Y y "") = 4%nat).
Proof.
  unfold strftime_Y.
  destruct (Z.ltb_spec y 10); [rewrite !length_zfill; simpl; lia|].
  destruct (Z.ltb_spec y 100); [rewrite !length_zfill; simpl; lia|].
  destruct (Z.ltb_spec y 1000); rewrite !length_zfill; simpl; lia.
Qed.

Lemma length_strftime_line t :
  String.length (strftime_line t)
  = (22 + String.length (strftime_year t))%nat.
Proof.
  unfold strftime_line, strftime_year.
  repeat (first [rewrite length_zfill
                | rewrite (proj1 (length_strftime_Y (year t) (String _ _)))];
          rewrite ?append_cons, ?append_nil_l; cbn [String.length]).
  lia.
Qed.

(** X16. The shape of an output line: it is a time with no comma in
    it, a comma, the intensity and a line feed, where the intensity is
    all that follows the one tab of the stripped input line; so the
    first comma of an output line always ends the time.  The time is 22
    characters and the digits of the year, which is not padded: 26
    characters from the year 1000 on, 23 to 25 before it. *)
Theorem converted_line_shape base_time line l :
  convert_line base_time line = Converted l ->
  exists t offset intensity,
    PyStr.strip line = offset +:+ String PyStr.tab intensity
    /\ l = strftime_line t +:+ "," +:+ intensity +:+ newline
    /\ count "," (strftime_line t) = 0%nat
    /\ count PyStr.tab intensity = 0%nat
    /\ String.length (strftime_line t)
       = (22 + String.length (strftime_year t))%nat
    /\ (1 <= String.length (strftime_year t) <= 4)%nat
    /\ (1000 <= year t -> String.length (strftime_line t) = 26%nat)
    /\ (year t < 1000 -> (String.length (strftime_line t) < 26)%nat).
Proof.
  unfold convert_line.
  destruct (PyStr.split PyStr.tab (PyStr.strip line)) as [|a [|b [|c l']]] eqn:Es;
    try discriminate.
  unfold convert_fields.
  destruct (PyFloat.float_of_string a) as [x|[]]; cbn [rbind]; try discriminate.
  destruct (timedelta_of_seconds x) as [td|[]]; cbn [rbind]; try discriminate.
  destruct (add base_time td) as [t|[]]; cbn [rbind]; try discriminate.
  intros H. inversion H; subst; clear H.
  destruct (split_two _ _ _ _ Es) as (Hs & _ & Hb).
  exists t, a, b. split; [assumption|]. split; [reflexivity|].
  split; [apply count_strftime_line|]. split; [assumption|].
  destruct (length_strftime_Y (year t) "") as (_ & Hy & Hy4).
  split; [apply length_strftime_line|].
  split; [exact Hy|].
  split.
  - intros Hge. rewrite length_strftime_line. unfold strftime_year.
    rewrite (Hy4 Hge). reflexivity.
  - intros Hlt. rewrite length_strftime_line. unfold strftime_year, strftime_Y.
    destruct (Z.ltb_spec (year t) 10); [rewrite length_zfill; simpl; lia|].
    destruct (Z.ltb_spec (year t) 100); [rewrite length_zfill; simpl; lia|].
    destruct (Z.ltb_spec (year t) 1000); [rewrite length_zfill; simpl; lia|lia].
Qed.

(** X16, on "2.5<TAB>HIGH". *)
Lemma converted_line_shape_witness :
  exists t offset intensity,
    PyStr.strip Examples.high = offset +:+ String PyStr.tab intensity
    /\ Examples.high_line = strftime_line t +:+ "," +:+ intensity +:+ newline
    /\ count "," (strftime_line t) = 0%nat
    /\ count PyStr.tab intensity = 0%nat
    /\ String.length (strftime_line t)
       = (22 + String.length (strftime_year t))%nat
    /\ (1 <= String.length (strftime_year t) <= 4)%nat
    /\ (1000 <= year t -> String.length (strftime_line t) = 26%nat)
    /\ (year t < 1000 -> (String.length (strftime_line t) < 26)%nat).
Proof.
  apply (converted_line_shape Examples.base_2024 Examples.high Examples.high_line).
  vm_compute. reflexivity.
Defined.

Lemma convert_lines_ok base_time file_path lines :
  forall converted log log' result,
    convert_lines base_time file_path lines converted log = (log', Ok result) ->
    Forall (in_range base_time) lines.
Proof.
  induction lines as [|line rest IH]; simpl; intros converted log log' result H.
  - constructor.
  - destruct (convert_line base_time line) eqn:E; try discriminate;
      (constructor; [unfold in_range; congruence | eauto]).
Qed.

(** X17. Every line is accounted for: when the loop ends without an
    exception, the lines it converted and the warnings it logged are
    together as many as the input lines that hold exactly one tab once
    stripped; all other lines were passed over without a word. *)
Theorem lines_accounted_for base_time file_path lines warnings converted :
  convert_lines base_time file_path lines [] [] = (warnings, Ok converted) ->
  (length converted + length warnings)%nat = length (List.filter one_tab lines).
Proof.
  intros H. pose proof (convert_lines_ok _ _ _ _ _ _ _ H) as Hr.
  rewrite (convert_lines_in_range _ file_path _ Hr [] []) in H.
  inversion H; subst; clear H.
  induction Hr as [|line rest Hline _ IH]; [reflexivity|].
  cbn [flat_map List.filter]. rewrite !length_app.
  pose proof (skipped_fields base_time line) as Hs.
  rewrite length_split in Hs.
  assert (Hs' : convert_line base_time line = Skipped
                <-> count PyStr.tab (PyStr.strip line) <> 1%nat)
    by (rewrite Hs; lia).
  clear Hs. rename Hs' into Hs.
  assert (Ho : one_tab line = true <-> count PyStr.tab (PyStr.strip line) = 1%nat)
    by (unfold one_tab; apply Nat.eqb_eq).
  unfold converted_of at 1, warning_of at 1.
  destruct (one_tab line) eqn:Et; destruct (convert_line base_time line) eqn:E;
    cbn [length app]; try lia; try (now destruct (Hline e)).
  - exfalso. apply (proj1 Hs eq_refl). now apply Ho.
  - assert (Hne : count PyStr.tab (PyStr.strip line) <> 1%nat)
      by (intros Heq; apply Ho in Heq; discriminate).
    apply Hs in Hne. discriminate.
  - assert (Hne : count PyStr.tab (PyStr.strip line) <> 1%nat)
      by (intros Heq; apply Ho in Heq; discriminate).
    apply Hs in Hne. discriminate.
Qed.

(** X17, on a line of each kind: one converted twice over (two good
    lines), one warning, one line passed over. *)
Lemma lines_accounted_for_witness :
  (length [Examples.high_line;
           strftime_line (mkDatetime 2024 1 1 10 0 1 0) +:+ ",a,b,c" +:+ newline]
   + length [LogWarning (SkippingInvalidLine
                           (PyStr.strip Examples.junk_line) Examples.dat)])%nat
  = length (List.filter one_tab (PyStr.readlines Samples.mixed_text)).
Proof.
  apply (lines_accounted_for Examples.base_2024 Examples.dat
           (PyStr.readlines Samples.mixed_text)).
  vm_compute. reflexivity.
Defined.

End LineFacts.

(** ** The lines that are skipped *)

Module LineSkipping.

Import PyDatetime Convert Observe ConvertFacts Lines Tally LineFacts.

(** *** Rounding never gives NaN *)

Lemma shr_1_nonneg mrs : 0 <= shr_m mrs -> 0 <= shr_m (shr_1 mrs).
Proof.
  destruct mrs as [m r s]. simpl.
  destruct m as [|[p|p|]|[p|p|]]; simpl; lia.
Qed.

Lemma shr_nonneg mrs e n : 0 <= shr_m mrs -> 0 <= shr_m (shr mrs e n).1.
Proof.
  intros H. unfold shr. destruct n as [|p|p]; simpl; try assumption.
  unfold iter_pos.
  revert mrs H. induction p as [p IH|p IH|]; intros mrs H; simpl.
  - apply IH, IH. now apply shr_1_nonneg.
  - apply IH, IH. assumption.
  - now apply shr_1_nonneg.
Qed.

Lemma shr_record_of_loc_m m l : shr_m (shr_record_of_loc m l) = m.
Proof. destruct l as [|[]]; reflexivity. Qed.

Lemma round_nearest_even_nonneg m l : 0 <= m -> 0 <= round_nearest_even m l.
Proof.
  intros H. destruct l as [|[]]; simpl; try lia. destruct (Z.even m); lia.
Qed.

Lemma binary_round_aux_not_nan prec emax sx mx ex lx :
  0 <= mx -> binary_round_aux prec emax sx mx ex lx <> S754_nan.
Proof.
  intros H. unfold binary_round_aux, shr_fexp.
  match goal with |- context [shr ?a ?b ?c] =>
    pose proof (shr_nonneg a b c) as H1; destruct (shr a b c) as [mrs1 e1] end.
  rewrite shr_record_of_loc_m in H1. specialize (H1 H). simpl in H1.
  match goal with |- context [shr ?a ?b ?c] =>
    pose proof (shr_nonneg a b c) as H2; destruct (shr a b c) as [mrs2 e2] end.
  rewrite shr_record_of_loc_m in H2.
  specialize (H2 (round_nearest_even_nonneg _ _ H1)). simpl in H2.
  destruct (shr_m mrs2); [discriminate| |lia].
  destruct (_ <=? _); discriminate.
Qed.

Lemma binary_normalize_not_nan m e szero :
  binary_normalize PyFloat.prec PyFloat.emax m e szero <> S754_nan.
Proof.
  unfold binary_normalize, binary_round.
  destruct m as [|p|p]; [discriminate| |];
    destruct (shl_align _ _ _) as [mz ez]; now apply binary_round_aux_not_nan.
Qed.

Lemma SFmul_million_not_nan y :
  y <> S754_nan -> SFmul PyFloat.prec PyFloat.emax million y <> S754_nan.
Proof.
  intros Hy.
  assert (Hm : exists m e, million = S754_finite false m e)
    by (do 2 eexists; vm_compute; reflexivity).
  destruct Hm as (m & e & ->).
  destruct y as [s|s| |s my ey]; simpl; try discriminate; [congruence|].
  now apply binary_round_aux_not_nan.
Qed.

(** [timedelta(seconds=x)] raises [ValueError] for NaN alone. *)
Lemma timedelta_of_seconds_value_error x :
  timedelta_of_seconds x = Raise ValueError <-> x = S754_nan.
Proof.
  split; [|intros ->; reflexivity].
  assert (Hm : forall us, microseconds_to_delta us = Raise ValueError -> x = S754_nan).
  { intros us H. apply microseconds_to_delta_raises in H. discriminate. }
  unfold timedelta_of_seconds.
  destruct x as [s|s| |s m ex]; [exact (Hm _) | discriminate | reflexivity |].
  destruct (PyFloat.modf_abs m ex) as [[ip r] k].
  destruct (r =? 0); [exact (Hm _)|].
  match goal with |- context [SFmul _ _ _ ?y] =>
    pose proof (SFmul_million_not_nan y (binary_normalize_not_nan _ _ _)) as Hn;
    destruct (SFmul PyFloat.prec PyFloat.emax million y) as [s2|s2| |s2 m2 e2] end;
    [exact (Hm _) | discriminate | congruence |].
  destruct (PyFloat.modf_abs m2 e2) as [[ip2 r2] k2]. exact (Hm _).
Qed.

(** What the loop does with a line that does not make it raise, read
    off its fields. *)
Lemma line_by_fields base_time file_path line :
  in_range base_time line ->
  match PyStr.split PyStr.tab (PyStr.strip line) with
  | [offset; intensity] =>
      match PyFloat.float_of_string offset with
      | Ok S754_nan | Raise _ =>
          converted_of base_time line = []
          /\ warning_of base_time file_path line
             = [LogWarning (SkippingInvalidLine (PyStr.strip line) file_path)]
      | Ok x =>
          exists delta t,
            timedelta_of_seconds x = Ok delta
            /\ add base_time delta = Ok t
            /\ converted_of base_time line
               = [strftime_line t +:+ "," +:+ intensity +:+ newline]
            /\ warning_of base_time file_path line = []
      end
  | _ =>
      converted_of base_time line = []
      /\ warning_of base_time file_path line = []
  end.
Proof.
  intros Hr. unfold in_range in Hr. unfold converted_of, warning_of.
  unfold convert_line in *.
  destruct (PyStr.split PyStr.tab (PyStr.strip line)) as [|a [|b [|c l]]];
    try (split; reflexivity).
  unfold convert_fields in *.
  destruct (PyFloat.float_of_string a) as [x|e] eqn:Ef; cbn [rbind] in *.
  - assert (Hgood : x <> S754_nan ->
              exists delta t,
                timedelta_of_seconds x = Ok delta
                /\ add base_time delta = Ok t
                /\ match
                     match do delta0 <- timedelta_of_seconds x;
                           do new_time <- add base_time delta0;
                           Ok (strftime_line new_time +:+ "," +:+ b +:+ newline)
                     with
                     | Ok converted_line => Converted converted_line
                     | Raise ValueError => Invalid
                     | Raise e => Aborted e
                     end
                   with
                   | Converted l => [l]
                   | _ => []
                   end = [strftime_line t +:+ "," +:+ b +:+ newline]
                /\ match
                     match do delta0 <- timedelta_of_seconds x;
                           do new_time <- add base_time delta0;
                           Ok (strftime_line new_time +:+ "," +:+ b +:+ newline)
                     with
                     | Ok converted_line => Converted converted_line
                     | Raise ValueError => Invalid
                     | Raise e => Aborted e
                     end
                   with
                   | Invalid =>
                       [LogWarning (SkippingInvalidLine (PyStr.strip line) file_path)]
                   | _ => []
                   end = []).
    { intros Hx.
      destruct (timedelta_of_seconds x) as [delta|e] eqn:Ed; cbn [rbind] in *.
      - destruct (add base_time delta) as [t|e] eqn:Ea; cbn [rbind] in *.
        + exists delta, t. auto.
        + apply add_raises in Ea. subst. now destruct (Hr OverflowError).
      - destruct (timedelta_of_seconds_raises _ _ Ed) as [->| ->].
        + apply timedelta_of_seconds_value_error in Ed. contradiction.
        + now destruct (Hr OverflowError). }
    destruct x as [s|s| |s m ex]; try (apply Hgood; discriminate).
    split; reflexivity.
  - apply float_of_string_raises in Ef. subst. split; reflexivity.
Qed.

(** C7, as it holds.  As long as no line makes the loop raise (no offset
    is infinite or beyond what [timedelta] and [datetime] hold), the
    loop runs over all the lines and its result is what the lines give
    one by one, in input order.  A line that does not strip and split
    into exactly two tab-separated fields is skipped without a log
    record.  A two-field line whose first field [float()] refuses, or
    reads as NaN, which [timedelta] refuses, is skipped with a warning
    in the log.  Every other line is converted: its output line is the
    formatted time of the origin plus its offset, a comma, its second
    field and a line feed, and no warning is logged for it.  The input
    "0.0<TAB>5<LF> bad_line<LF>1.5<TAB>7<LF>" gives exactly two
    converted lines, at the origin and 1.5 seconds after it, and no
    warning. *)
Theorem C7_line_skipping base_time file_path lines t0 t1 :
  Forall (in_range base_time) lines ->
  add base_time (mkDelta 0 0 0) = Ok t0 ->
  add base_time (mkDelta 0 1 500000) = Ok t1 ->
  convert_lines base_time file_path lines [] []
  = (flat_map (warning_of base_time file_path) lines,
     Ok (flat_map (converted_of base_time) lines))
  /\ (forall line,
        in_range base_time line ->
        match PyStr.split PyStr.tab (PyStr.strip line) with
        | [offset; intensity] =>
            match PyFloat.float_of_string offset with
            | Ok S754_nan | Raise _ =>
                converted_of base_time line = []
                /\ warning_of base_time file_path line
                   = [LogWarning (SkippingInvalidLine (PyStr.strip line) file_path)]
            | Ok x =>
                exists delta t,
                  timedelta_of_seconds x = Ok delta
                  /\ add base_time delta = Ok t
                  /\ converted_of base_time line
                     = [strftime_line t +:+ "," +:+ intensity +:+ newline]
                  /\ warning_of base_time file_path line = []
            end
        | _ =>
            converted_of base_time line = []
            /\ warning_of base_time file_path line = []
        end)
  /\ convert_lines base_time file_path (PyStr.readlines Examples.skip_text) [] []
     = ([], Ok [strftime_line t0 +:+ "," +:+ "5" +:+ newline;
                strftime_line t1 +:+ "," +:+ "7" +:+ newline]).
Proof.
  intros Hlines Ht0 Ht1.
  split; [exact (convert_lines_in_range _ _ _ Hlines [] [])|].
  split; [intros line; apply line_by_fields|].
  assert (H1 : convert_line base_time ("0.0" +:+ Examples.tb +:+ "5" +:+ Examples.nl)
               = Converted (strftime_line t0 +:+ "," +:+ "5" +:+ newline)).
  { apply (convert_line_converted _ _ "0.0" "5" (S754_zero false) (mkDelta 0 0 0));
      [vm_compute; reflexivity ..| assumption]. }
  assert (H2 : convert_line base_time Examples.bad_line = Skipped).
  { apply convert_line_skipped. vm_compute. discriminate. }
  assert (H3 : convert_line base_time ("1.5" +:+ Examples.tb +:+ "7" +:+ Examples.nl)
               = Converted (strftime_line t1 +:+ "," +:+ "7" +:+ newline)).
  { apply (convert_line_converted _ _ "1.5" "7"
             (S754_finite false 6755399441055744 (-52)) (mkDelta 0 1 500000));
      [vm_compute; reflexivity ..| assumption]. }
  rewrite LineClaims.readlines_skip_text, convert_lines_in_range.
  - unfold warning_of, converted_of. cbn [flat_map]. now rewrite H1, H2, H3.
  - repeat constructor;
      eauto using in_range_skipped, in_range_converted.
Qed.

(** C7, as it holds, on the origin 2024-01-01T10:00:00 and a line of
    each kind: no number, a good line, no tab, NaN. *)
Lemma C7_line_skipping_witness :
  convert_lines Examples.base_2024 Examples.dat
    [Examples.junk_line; Examples.high; Examples.bad_line; Examples.nan_line] [] []
  = (flat_map (warning_of Examples.base_2024 Examples.dat)
       [Examples.junk_line; Examples.high; Examples.bad_line; Examples.nan_line],
     Ok (flat_map (converted_of Examples.base_2024)
           [Examples.junk_line; Examples.high; Examples.bad_line; Examples.nan_line]))
  /\ (forall line,
        in_range Examples.base_2024 line ->
        match PyStr.split PyStr.tab (PyStr.strip line) with
        | [offset; intensity] =>
            match PyFloat.float_of_string offset with
            | Ok S754_nan | Raise _ =>
                converted_of Examples.base_2024 line = []
                /\ warning_of Examples.base_2024 Examples.dat line
                   = [LogWarning (SkippingInvalidLine (PyStr.strip line) Examples.dat)]
            | Ok x =>
                exists delta t,
                  timedelta_of_seconds x = Ok delta
                  /\ add Examples.base_2024 delta = Ok t
                  /\ converted_of Examples.base_2024 line
                     = [strftime_line t +:+ "," +:+ intensity +:+ newline]
                  /\ warning_of Examples.base_2024 Examples.dat line = []
            end
        | _ =>
            converted_of Examples.base_2024 line = []
            /\ warning_of Examples.base_2024 Examples.dat line = []
        end)
  /\ convert_lines Examples.base_2024 Examples.dat
       (PyStr.readlines Examples.skip_text) [] []
     = ([], Ok [strftime_line (mkDatetime 2024 1 1 10 0 0 0)
                  +:+ "," +:+ "5" +:+ newline;
                strftime_line (mkDatetime 2024 1 1 10 0 1 500000)
                  +:+ "," +:+ "7" +:+ newline]).
Proof.
  apply (C7_line_skipping Examples.base_2024 Examples.dat
           [Examples.junk_line; Examples.high; Examples.bad_line; Examples.nan_line]
           (mkDatetime 2024 1 1 10 0 0 0) (mkDatetime 2024 1 1 10 0 1 500000)).
  - repeat constructor; intros e; vm_compute; discriminate.
  - vm_compute. reflexivity.
  - vm_compute. reflexivity.
Defined.

End LineSkipping.

Module TextFacts.

Import PyDatetime Convert Observe ConvertFacts Lines Tally LineFacts.

Lemma readlines_nil s : PyStr.readlines s = [] -> s = "".
Proof.
  destruct s as [|c s]; [reflexivity|]. simpl.
  destruct (Ascii.eqb c PyStr.lf); [discriminate|].
  destruct (Ascii.eqb c PyStr.cr).
  - destruct s as [|c' s]; [discriminate|]. destruct (Ascii.eqb c' PyStr.lf); discriminate.
  - destruct (PyStr.readlines s); [discriminate|]. destruct s; discriminate.
Qed.

(** X18. Reading the lines loses nothing: the lines that [readlines]
    gives for a text without carriage returns, put one after the other,
    are the text again. *)
Theorem readlines_joined s :
  without PyStr.cr s -> joined (PyStr.readlines s) = s.
Proof.
  induction s as [|c s IH]; [reflexivity|].
  intros [Hc Hs]. specialize (IH Hs). cbn [PyStr.readlines].
  destruct (Ascii.eqb_spec c PyStr.lf) as [->|Hlf].
  - cbn [joined fold_right]. fold (joined (PyStr.readlines s)). now rewrite IH.
  - destruct (Ascii.eqb_spec c PyStr.cr) as [->|_]; [contradiction|].
    destruct (PyStr.readlines s) as [|l ls] eqn:E.
    + apply readlines_nil in E. now subst.
    + destruct s as [|c' s']; [discriminate|].
      cbn [joined fold_right] in *. rewrite append_cons. now rewrite IH.
Qed.

(** X18, on the three lines of [Examples.skip_text]. *)
Lemma readlines_joined_witness :
  joined (PyStr.readlines Examples.skip_text) = Examples.skip_text.
Proof.
  apply (readlines_joined Examples.skip_text).
  vm_compute. intuition discriminate.
Defined.

Lemma one_line_cons c l : c <> PyStr.lf -> one_line l -> one_line (String c l).
Proof.
  intros Hc (body & Hb & Hl). exists (String c body). split; [simpl; auto|].
  destruct Hl as [->| ->]; [now left | now right].
Qed.

Lemma readlines_one_line_next s :
  Forall one_line (PyStr.readlines s)
  /\ forall c, Forall one_line (PyStr.readlines (String c s)).
Proof.
  assert (Hnl : one_line (String PyStr.lf "")).
  { exists "". split; [exact I|]. now right. }
  assert (Hone : forall c, c <> PyStr.lf -> one_line (String c "")).
  { intros c Hc. exists (String c ""). split; [simpl; auto | now left]. }
  induction s as [|c s [IH1 IH2]].
  - split; [constructor|]. intros c. cbn [PyStr.readlines].
    destruct (Ascii.eqb_spec c PyStr.lf) as [->|Hlf]; [now repeat constructor|].
    destruct (Ascii.eqb c PyStr.cr); repeat constructor; auto.
  - split; [apply IH2|]. intros c2.
    change (PyStr.readlines (String c2 (String c s)))
      with (if Ascii.eqb c2 PyStr.lf
            then String PyStr.lf "" :: PyStr.readlines (String c s)
            else if Ascii.eqb c2 PyStr.cr
                 then if Ascii.eqb c PyStr.lf
                      then String PyStr.lf "" :: PyStr.readlines s
                      else String PyStr.lf "" :: PyStr.readlines (String c s)
                 else match PyStr.readlines (String c s) with
                      | l :: ls => String c2 l :: ls
                      | [] => [String c2 ""]
                      end).
    specialize (IH2 c).
    destruct (Ascii.eqb_spec c2 PyStr.lf) as [->|Hlf]; [now constructor|].
    destruct (Ascii.eqb c2 PyStr.cr).
    + destruct (Ascii.eqb c PyStr.lf); now constructor.
    + destruct (PyStr.readlines (String c s)) as [|l ls].
      * repeat constructor; auto.
      * inversion IH2; subst. constructor; [now apply one_line_cons | assumption].
Qed.

Lemma readlines_one_line s : Forall one_line (PyStr.readlines s).
Proof. apply readlines_one_line_next. Qed.

Lemma without_lstrip c sp s : without c s -> without c (PyStr.lstrip_with sp s).
Proof.
  induction s as [|x s IH]; simpl; [auto|].
  intros [Hx Hs]. destruct (sp x); simpl; auto.
Qed.

Lemma without_rstrip c sp s : without c s -> without c (PyStr.rstrip_with sp s).
Proof.
  induction s as [|x s IH]; simpl; [auto|].
  intros [Hx Hs]. specialize (IH Hs).
  destruct (PyStr.rstrip_with sp s); [destruct (sp x)|]; simpl in *; auto.
Qed.

Lemma rstrip_app_space sp a ws :
  sp ws = true ->
  PyStr.rstrip_with sp (a +:+ String ws "") = PyStr.rstrip_with sp a.
Proof.
  intros Hws. induction a as [|x a IH].
  - simpl. now rewrite Hws.
  - rewrite append_cons. cbn [PyStr.rstrip_with]. now rewrite IH.
Qed.

Lemma lstrip_app_space sp a ws :
  sp ws = true ->
  PyStr.lstrip_with sp (a +:+ String ws "")
  = PyStr.lstrip_with sp a +:+ String ws ""
  \/ PyStr.lstrip_with sp (a +:+ String ws "") = "".
Proof.
  intros Hws. induction a as [|x a IH].
  - right. simpl. now rewrite Hws.
  - rewrite append_cons. cbn [PyStr.lstrip_with].
    destruct (sp x); [assumption|]. left. now rewrite append_cons.
Qed.

Lemma strip_one_line l : one_line l -> without PyStr.lf (PyStr.strip l).
Proof.
  intros (body & Hb & [->| ->]); unfold PyStr.strip.
  - now apply without_rstrip, without_lstrip.
  - destruct (lstrip_app_space PyStr.isspace body PyStr.lf eq_refl) as [H|H];
      unfold newline; rewrite H.
    + rewrite rstrip_app_space by reflexivity.
      now apply without_rstrip, without_lstrip.
    + exact I.
Qed.

Lemma without_split c sep s :
  without c s -> Forall (without c) (PyStr.split sep s).
Proof.
  induction s as [|x s IH]; simpl.
  - repeat constructor.
  - intros [Hx Hs]. specialize (IH Hs).
    destruct (Ascii.eqb x sep); [constructor; [exact I | assumption]|].
    destruct (PyStr.split sep s) as [|p ps]; [repeat constructor; assumption|].
    inversion IH; subst. constructor; [simpl; auto | assumption].
Qed.

Lemma without_count c s : without c s -> count c s = 0%nat.
Proof.
  induction s as [|x s IH]; simpl; [reflexivity|].
  intros [Hx Hs]. destruct (Ascii.eqb_spec x c); [contradiction|]. auto.
Qed.

Lemma digit_not_lf n : Ascii.eqb (digit n) PyStr.lf = false.
Proof.
  unfold digit.
  assert (H : 0 <= n mod 10 < 10) by (apply Z.mod_pos_bound; lia).
  assert (Hc : n mod 10 = 0 \/ n mod 10 = 1 \/ n mod 10 = 2 \/ n mod 10 = 3
               \/ n mod 10 = 4 \/ n mod 10 = 5 \/ n mod 10 = 6 \/ n mod 10 = 7
               \/ n mod 10 = 8 \/ n mod 10 = 9) by lia.
  repeat (destruct Hc as [Hc|Hc]; [rewrite Hc; reflexivity|]).
  rewrite Hc; reflexivity.
Qed.

Lemma count_lf_zfill width :
  forall n acc, count PyStr.lf (zfill width n acc) = count PyStr.lf acc.
Proof.
  induction width as [|width IH]; intros n acc; [reflexivity|].
  cbn [zfill]. rewrite IH. cbn [count]. now rewrite digit_not_lf.
Qed.

Lemma count_lf_strftime_Y y acc :
  count PyStr.lf (strftime_Y y acc) = count PyStr.lf acc.
Proof. unfold strftime_Y. repeat destruct (_ <? _); apply count_lf_zfill. Qed.

Lemma count_lf_strftime_line t : count PyStr.lf (strftime_line t) = 0%nat.
Proof.
  unfold strftime_line.
  repeat (first [rewrite count_lf_zfill | rewrite count_lf_strftime_Y];
          rewrite ?append_cons, ?append_nil_l;
          cbn [count]; change (Ascii.eqb _ PyStr.lf) with false; cbv iota).
  reflexivity.
Qed.

(** X19. One record per output line: every line converted from a text
    file, as [readlines] gives its lines, holds exactly one line feed,
    and that is its last character; whatever the intensity is, it cannot
    break an output line in two. *)
Theorem one_record_per_line base_time text :
  Forall (fun l => count PyStr.lf l = 1%nat /\ exists body, l = body +:+ newline)
         (flat_map (converted_of base_time) (PyStr.readlines text)).
Proof.
  pose proof (readlines_one_line text) as Hlines.
  induction Hlines as [|line rest Hline _ IH]; [constructor|].
  cbn [flat_map]. apply Forall_app. split; [|assumption].
  unfold converted_of. destruct (convert_line base_time line) as [|l| |] eqn:E;
    try constructor; [|constructor].
  pose proof (strip_one_line _ Hline) as Hstrip.
  unfold convert_line in E.
  destruct (PyStr.split PyStr.tab (PyStr.strip line)) as [|a [|b [|c l']]] eqn:Es;
    try discriminate.
  apply (without_split _ PyStr.tab) in Hstrip. rewrite Es in Hstrip.
  inversion Hstrip as [|? ? _ Hrest]; subst. inversion Hrest as [|? ? Hb _]; subst.
  unfold convert_fields in E.
  destruct (PyFloat.float_of_string a) as [x|[]]; cbn [rbind] in E; try discriminate.
  destruct (timedelta_of_seconds x) as [td|[]]; cbn [rbind] in E; try discriminate.
  destruct (add base_time td) as [t|[]]; cbn [rbind] in E; try discriminate.
  inversion E; subst; clear E.
  split.
  - rewrite !count_app, count_lf_strftime_line, (without_count _ _ Hb).
    reflexivity.
  - exists (strftime_line t +:+ "," +:+ b). now rewrite !append_assoc.
Qed.

End TextFacts.
